(** * cypress-slack-video-upload-action: a shallow embedding of [src/main.ts]

    The action is one asynchronous function, [run], and one helper,
    [getChannelId].  Both are straight-line code over three kinds of effect:
    calls of [@actions/core] ([info], [setFailed], [setOutput]), calls of the
    Slack web client, and exceptions caught by [try]/[catch].  An invocation
    is modelled as a function from the [World] (what the inputs, the
    environment and the remote services answer) to the trace of events it
    emits, in a small writer-and-exception monad. *)

From Stdlib Require Import Ascii String DecimalString.
From stdpp Require Import base strings list gmap.

(** ** JavaScript primitives used by the source *)

Module JS.

(** Strings are sequences of bytes (UTF-8).  [toLowerCase] maps [A]..[Z] to
    [a]..[z] and leaves every other byte alone.  The one code point outside
    ASCII that JavaScript lowers to an ASCII letter is U+212A (to [k]), a
    letter of none of the three action names, so membership of the lowered
    string in the action lists is the same as in JavaScript. *)
Definition lower_ascii (c : ascii) : ascii :=
  let n := nat_of_ascii c in
  if (65 <=? n)%nat && (n <=? 90)%nat then ascii_of_nat (n + 32) else c.

Fixpoint toLowerCase (s : string) : string :=
  match s with
  | EmptyString => EmptyString
  | String c s' => String (lower_ascii c) (toLowerCase s')
  end.

(** [xs.includes(x)] on an array of strings. *)
Definition includes (xs : list string) (x : string) : bool :=
  existsb (String.eqb x) xs.

(** [a || b] on strings: the empty string is the only falsy string. *)
Definition or_else (a b : string) : string :=
  if String.eqb a "" then b else a.

(** [`${n}`] for a number that is an array length. *)
Definition of_nat (n : nat) : string :=
  NilEmpty.string_of_uint (Nat.to_uint n).

(** Does [s] end with [suffix]? *)
Definition endsWith (s suffix : string) : bool :=
  let n := String.length s in
  let k := String.length suffix in
  (k <=? n)%nat && String.eqb (substring (n - k) k s) suffix.

End JS.

(** ** The Slack web client: calls and their arguments *)

Module Slack.

(** An element of [result.channels]; both fields are optional in the
    client's typing. *)
Record Channel := { id : option string; name : option string }.

(** The one attachment the start and finish messages carry: a colour, a
    header block and a section block with three [mrkdwn] fields. *)
Record Attachment := {
  color : string;
  header : string;
  fields : list string
}.

(** Arguments of [chat.postMessage].  The start message sets [attachments];
    the pointer message sets [thread_ts], [text] and [mrkdwn]. *)
Record PostMessageArgs := {
  post_channel : string;
  post_link_names : bool;
  post_thread_ts : option string;
  post_mrkdwn : option bool;
  post_text : option string;
  post_attachments : list Attachment
}.

Record UpdateArgs := {
  update_channel : string;
  update_link_names : bool;
  update_ts : string;
  update_attachments : list Attachment
}.

(** Arguments of [files.upload]; [file] is the path handed to
    [createReadStream]. *)
Record UploadArgs := {
  filename : string;
  file : string;
  upload_thread_ts : string;
  channels : string
}.

Inductive call :=
| ConversationsList
| ChatPostMessage (args : PostMessageArgs)
| ChatUpdate (args : UpdateArgs)
| FilesUpload (args : UploadArgs).

End Slack.

(** ** Events and the effect monad *)

(** What an invocation does that the outside can see, in order. *)
Inductive event :=
| Info (message : string)
| SetFailed (message : string)
| SetOutput (key : string) (value : option string)
| Remote (c : Slack.call).

(** How an awaited call or a block ends: with a value, or by throwing an
    error whose [.message] is [msg]. *)
Inductive completion (A : Type) :=
| Normal (a : A)
| Throw (msg : string).
Arguments Normal {A} a.
Arguments Throw {A} msg.

Definition Eff (A : Type) : Type := list event * completion A.

Definition ret {A} (a : A) : Eff A := ([], Normal a).

Definition bind {A B} (m : Eff A) (k : A -> Eff B) : Eff B :=
  match m with
  | (tr, Normal a) => let '(tr', r) := k a in (tr ++ tr', r)
  | (tr, Throw msg) => (tr, Throw msg)
  end.

Declare Scope eff_scope.
Delimit Scope eff_scope with eff.
Bind Scope eff_scope with Eff.
Notation "'let*' x ':=' m 'in' k" := (bind m (fun x => k))
  (at level 10, x name, m at level 100, k at level 200) : eff_scope.
Notation "m ';;' k" := (bind m (fun _ => k))
  (at level 100, k at level 200, right associativity) : eff_scope.

Definition emit (e : event) : Eff unit := ([e], Normal tt).

(** [try { m } catch (error) { h(error.message) }] *)
Definition try_catch {A} (m : Eff A) (h : string -> Eff A) : Eff A :=
  match m with
  | (tr, Normal a) => (tr, Normal a)
  | (tr, Throw msg) => let '(tr', r) := h msg in (tr ++ tr', r)
  end.

(** [await client.method(args)]: the call is issued, then its completion is
    observed. *)
Definition await {A} (c : Slack.call) (response : completion A) : Eff A :=
  ([Remote c], response).

(** A synchronous call of a library function that may throw. *)
Definition lift {A} (r : completion A) : Eff A := ([], r).

Definition trace {A} (m : Eff A) : list event := fst m.

Module core.
Definition info (message : string) : Eff unit := emit (Info message).
Definition setFailed (message : string) : Eff unit := emit (SetFailed message).
Definition setOutput (key : string) (value : option string) : Eff unit :=
  emit (SetOutput key value).
End core.

(** ** The world an invocation runs in *)

(** Everything [run] reads from outside: the action's inputs as
    [core.getInput] returns them, [process.env], what each Slack call answers
    and what the directory walk returns.  A [files.upload] promise also has
    the time at which it settles, which decides the error [Promise.all]
    rejects with when several uploads of a group fail. *)
Record World := {
  inputs : gmap string string;
  process_env : gmap string string;
  conversations_list : completion (option (list Slack.Channel));
  chat_postMessage : Slack.PostMessageArgs -> completion (option string);
  chat_update : Slack.UpdateArgs -> completion unit;
  files_upload : Slack.UploadArgs -> nat * completion unit;
  walkSync : string -> list string -> completion (list string)
}.

(** [core.getInput(name)]: the empty string when the input is not set. *)
Definition getInput (w : World) (name : string) : string :=
  default "" (inputs w !! name).

(** [process.env.NAME || ''] *)
Definition getEnv (w : World) (name : string) : string :=
  default "" (process_env w !! name).

(** ** [Promise.all] over uploads already issued *)

(** The earliest rejection among promises given with their settle times;
    of two that settle together the one issued first wins. *)
Fixpoint first_rejection (ps : list (nat * completion unit))
  : option (nat * string) :=
  match ps with
  | [] => None
  | (_, Normal _) :: ps' => first_rejection ps'
  | (t, Throw msg) :: ps' =>
      match first_rejection ps' with
      | Some (t', msg') => if (t' <? t)%nat then Some (t', msg') else Some (t, msg)
      | None => Some (t, msg)
      end
  end.

Definition Promise_all (ps : list (nat * completion unit)) : completion unit :=
  match first_rejection ps with
  | Some (_, msg) => Throw msg
  | None => Normal tt
  end.

(** ** [getChannelId] *)

(** [c => c.name === channelName] *)
Definition name_is (channelName : string) (c : Slack.Channel) : bool :=
  match Slack.name c with
  | Some n => String.eqb n channelName
  | None => false
  end.

(** The result is [channel.id] of the first channel of the listing with the
    requested name, or [undefined] ([None]) after [setFailed] when there is
    none or the listing call throws. *)
Definition getChannelId (w : World) (channelName : string)
  : Eff (option string) :=
  try_catch
    (let* result := await Slack.ConversationsList (conversations_list w) in
     match find (name_is channelName) (default [] result) with
     | Some channel => ret (Slack.id channel)
     | None =>
         core.setFailed ("Channel '" +:+ channelName +:+ "' not found.") ;;
         ret None
     end)%eff
    (fun message =>
       core.setFailed ("Failed to fetch channel ID: " +:+ message) ;;
       ret None)%eff.

(** ** [run] *)

(** [runStatus = core.getInput('status') || false]: a string or [false]. *)
Inductive status_value :=
| StatusString (s : string)
| StatusFalse.

Definition status_or_false (s : string) : status_value :=
  if String.eqb s "" then StatusFalse else StatusString s.

(** [runStatus === 'success'] *)
Definition is_success (runStatus : status_value) : bool :=
  match runStatus with
  | StatusString s => String.eqb s "success"
  | StatusFalse => false
  end.

(** [`${runStatus}`] *)
Definition render_status (runStatus : status_value) : string :=
  match runStatus with
  | StatusString s => s
  | StatusFalse => "false"
  end.

(** [!channelID] fails for a non-empty string only. *)
Definition truthy (v : option string) : option string :=
  match v with
  | Some s => if String.eqb s "" then None else Some s
  | None => None
  end.

Definition run_url (w : World) : string :=
  "*Run URL:* <" +:+ getEnv w "GITHUB_SERVER_URL" +:+ "/"
    +:+ getEnv w "GITHUB_REPOSITORY" +:+ "/actions/runs/"
    +:+ getEnv w "GITHUB_RUN_ID" +:+ "|Click!>".

(** The message posted in start mode. *)
Definition start_message (w : World) (channelID messageText author : string)
  : Slack.PostMessageArgs :=
  {| Slack.post_channel := channelID;
     Slack.post_link_names := true;
     Slack.post_thread_ts := None;
     Slack.post_mrkdwn := None;
     Slack.post_text := None;
     Slack.post_attachments :=
       [ {| Slack.color := "#f2c744";
            Slack.header := ":rocket: " +:+ messageText;
            Slack.fields := [ run_url w; "*Status:* In progress";
                              "*Author:* @" +:+ author ] |} ] |}.

(** The edit made in finish mode. *)
Definition finish_message (w : World)
    (channelID previousMsgThreadId messageText author : string)
    (runStatus : status_value) : Slack.UpdateArgs :=
  let statusColor := if is_success runStatus then "#64f244" else "#e30d0d" in
  let statusIcon := if is_success runStatus then ":ok_hand:" else ":poop:" in
  {| Slack.update_channel := channelID;
     Slack.update_link_names := true;
     Slack.update_ts := previousMsgThreadId;
     Slack.update_attachments :=
       [ {| Slack.color := statusColor;
            Slack.header := statusIcon +:+ " " +:+ messageText;
            Slack.fields := [ run_url w;
                              "*Status:* " +:+ render_status runStatus;
                              "*Author:* @" +:+ author ] |} ] |}.

(** The message posted into the thread before the uploads. *)
Definition pointer_message (channelID previousMsgThreadId author : string)
  : Slack.PostMessageArgs :=
  {| Slack.post_channel := channelID;
     Slack.post_link_names := true;
     Slack.post_thread_ts := Some previousMsgThreadId;
     Slack.post_mrkdwn := Some true;
     Slack.post_text := Some ("@" +:+ author +:+ " check this out :point_down:");
     Slack.post_attachments := [] |}.

Definition upload_args (dir previousMsgThreadId channelID path : string)
  : Slack.UploadArgs :=
  {| Slack.filename := path;
     Slack.file := dir +:+ "/" +:+ path;
     Slack.upload_thread_ts := previousMsgThreadId;
     Slack.channels := channelID |}.

(** One call of the [async] arrow function handed to [map]: it runs up to
    its [await], so the note is logged and the upload issued at once, and the
    promise it returns settles as the upload does. *)
Definition upload_one (w : World) (dir previousMsgThreadId channelID : string)
    (path : string) : list event * (nat * completion unit) :=
  let args := upload_args dir previousMsgThreadId channelID path in
  ([Info ("Uploading " +:+ path); Remote (Slack.FilesUpload args)],
   files_upload w args).

(** [await Promise.all(paths.map(async path => ...))] *)
Definition upload_all (w : World) (dir previousMsgThreadId channelID : string)
    (paths : list string) : Eff unit :=
  let promises := map (upload_one w dir previousMsgThreadId channelID) paths in
  (concat (map fst promises), Promise_all (map snd promises)).

(** Lines 71-109: the body of [if (action === 'start')]. *)
Definition start_mode (w : World) (channelID messageText author : string)
  : Eff unit :=
  (let args := start_message w channelID messageText author in
   let* result := await (Slack.ChatPostMessage args) (chat_postMessage w args) in
   let threadID := result in
   core.setOutput "thread-id" threadID)%eff.

(** Lines 111-151: the body of [else if (action === 'finish')]. *)
Definition finish_mode (w : World)
    (channelID previousMsgThreadId messageText author : string) : Eff unit :=
  let runStatus := status_or_false (getInput w "status") in
  let args := finish_message w channelID previousMsgThreadId messageText
                author runStatus in
  await (Slack.ChatUpdate args) (chat_update w args).

(** Lines 154-211: what follows the two branches, the upload behaviour. *)
Definition upload_mode (w : World)
    (channelID previousMsgThreadId author screenshotsDir videosDir : string)
  : Eff unit :=
  (core.info "Checking for videos and/or screenshots from cypress" ;;
   let* videos := lift (walkSync w videosDir ["**/*.mp4"]) in
   let* screenshots := lift (walkSync w screenshotsDir ["**/*.png"]) in
   if (length videos <=? 0)%nat && (length screenshots <=? 0)%nat
   then core.info "No videos or screenshots found. Exiting!"
   else
     let pointer := pointer_message channelID previousMsgThreadId author in
     (let* _ := await (Slack.ChatPostMessage pointer)
                      (chat_postMessage w pointer) in
      core.info ("Found " +:+ JS.of_nat (length videos)
                 +:+ " videos and " +:+ JS.of_nat (length screenshots)
                 +:+ " screenshots")) ;;
     (if (0 <? length screenshots)%nat then
        core.info ("Uploading " +:+ JS.of_nat (length screenshots)
                   +:+ " screenshots") ;;
        upload_all w screenshotsDir previousMsgThreadId channelID screenshots ;;
        core.info "...done!"
      else ret tt) ;;
     (if (0 <? length videos)%nat then
        core.info ("Uploading " +:+ JS.of_nat (length videos) +:+ " videos") ;;
        upload_all w videosDir previousMsgThreadId channelID videos ;;
        core.info "...done!"
      else ret tt))%eff.

Definition run (w : World) : Eff unit :=
  try_catch
    (let action := getInput w "action" in
     let channel := getInput w "channel" in
     let author := getInput w "author" in
     let screenshotsDir :=
       JS.or_else (getInput w "screenshots") "cypress/screenshots" in
     let videosDir := JS.or_else (getInput w "videos") "cypress/videos" in
     let messageText := getInput w "message-text" in
     let previousMsgThreadId := JS.or_else (getInput w "thread-id") "" in
     core.info ("Action: " +:+ action) ;;
     core.info ("Channel: " +:+ channel) ;;
     core.info ("Message text: " +:+ messageText) ;;
     core.info ("Author: " +:+ author) ;;
     core.info ("Screenshots dir: " +:+ screenshotsDir) ;;
     core.info ("Videos dir: " +:+ videosDir) ;;
     core.info ("Thread ID: " +:+ previousMsgThreadId) ;;
     if negb (JS.includes ["start"; "upload"; "finish"] (JS.toLowerCase action))
     then core.setFailed ("Unknown action: " +:+ action)
     else if JS.includes ["upload"; "finish"] (JS.toLowerCase action)
             && String.eqb previousMsgThreadId ""
     then core.setFailed ("Action: " +:+ action +:+ " requires thread-id.")
     else
       core.info "Initializing slack SDK" ;;
       core.info "Slack SDK initialized successfully" ;;
       let* channelID := getChannelId w channel in
       match truthy channelID with
       | None => ret tt
       | Some channelID =>
           if String.eqb action "start" then
             start_mode w channelID messageText author
           else if String.eqb action "finish" then
             finish_mode w channelID previousMsgThreadId messageText author
           else
             upload_mode w channelID previousMsgThreadId author
               screenshotsDir videosDir
       end)%eff
    (fun message => core.setFailed message).

(** ** Reading a trace *)

(** The remote calls of a trace, in the order they were issued. *)
Definition calls (tr : list event) : list Slack.call :=
  flat_map (fun e => match e with Remote c => [c] | _ => [] end) tr.

(** The messages the run was marked failed with. *)
Definition failures (tr : list event) : list string :=
  flat_map (fun e => match e with SetFailed m => [m] | _ => [] end) tr.

(** The outputs set. *)
Definition outputs (tr : list event) : list (string * option string) :=
  flat_map (fun e => match e with SetOutput k v => [(k, v)] | _ => [] end) tr.

(** ** The file system behind [walkSync] *)

Module FS.

(** [walkSync] is the [walk-sync] package, which is not among the sources;
    [run] only calls it.  The model follows the package.  A disk maps a root
    directory that exists to the entries under it, relative to the root and
    in walk order; the entry of a directory ends with [/]. *)

(** An entry without the [/] that marks a directory. *)
Definition entry_path (entry : string) : string :=
  if JS.endsWith entry "/"
  then substring 0 (String.length entry - 1) entry
  else entry.

(** Does a segment of the path start with a dot?  [at_start] says that the
    next character opens a segment. *)
Fixpoint hidden_from (at_start : bool) (path : string) : bool :=
  match path with
  | EmptyString => false
  | String c rest =>
      (at_start && Ascii.eqb c ".") || hidden_from (Ascii.eqb c "/") rest
  end.

(** The two globs [run] passes have the form [**/*ext].  Such a glob matches
    an entry, file or directory, whose path ends with [ext] and has no
    segment that starts with a dot. *)
Definition matches (glob entry : string) : bool :=
  match glob with
  | String "*" (String "*" (String "/" (String "*" ext))) =>
      negb (hidden_from true (entry_path entry))
      && JS.endsWith (entry_path entry) ext
  | _ => false
  end.

(** The message of the error thrown for a root that does not exist; the
    package reports the resolved path, modelled by the root as given. *)
Definition enoent (baseDir : string) : string :=
  "ENOENT: no such file or directory, lstat '" +:+ baseDir +:+ "'".

(** The walk of a root that exists keeps the entries that match one of the
    globs.  The walk of a root that does not exist throws: the package
    resolves the root before reading it and has no check of its own, where
    section 4.5 of the specification expects the empty sequence. *)
Definition walkSync (fs : gmap string (list string))
    (baseDir : string) (globs : list string) : completion (list string) :=
  match fs !! baseDir with
  | None => Throw (enoent baseDir)
  | Some entries =>
      Normal (List.filter
                (fun entry => existsb (fun g => matches g entry) globs)
                entries)
  end.

End FS.

(** ** Vocabulary of the statements *)

Definition valid_action (action : string) : bool :=
  JS.includes ["start"; "upload"; "finish"] (JS.toLowerCase action).

Definition needs_thread (action : string) : bool :=
  JS.includes ["upload"; "finish"] (JS.toLowerCase action).

(** The notes logged before validation (lines 36-42). *)
Definition preamble (w : World) : list event :=
  [ Info ("Action: " +:+ getInput w "action");
    Info ("Channel: " +:+ getInput w "channel");
    Info ("Message text: " +:+ getInput w "message-text");
    Info ("Author: " +:+ getInput w "author");
    Info ("Screenshots dir: "
          +:+ JS.or_else (getInput w "screenshots") "cypress/screenshots");
    Info ("Videos dir: " +:+ JS.or_else (getInput w "videos") "cypress/videos");
    Info ("Thread ID: " +:+ JS.or_else (getInput w "thread-id") "") ].

(** The notes logged around the construction of the client (lines 57-59). *)
Definition sdk_notes : list event :=
  [ Info "Initializing slack SDK"; Info "Slack SDK initialized successfully" ].

(** Channel resolution hands [run] the usable identifier [channelID]. *)
Definition resolves_to (w : World) (channelID : string) : Prop :=
  snd (getChannelId w (getInput w "channel")) = Normal (Some channelID)
  /\ channelID <> "".

(** The branch [run] takes once validation has passed and the channel is
    resolved: the comparison is on [action] itself. *)
Definition branch (w : World) (channelID : string) : Eff unit :=
  let action := getInput w "action" in
  let author := getInput w "author" in
  let messageText := getInput w "message-text" in
  let previousMsgThreadId := getInput w "thread-id" in
  if String.eqb action "start" then
    start_mode w channelID messageText author
  else if String.eqb action "finish" then
    finish_mode w channelID previousMsgThreadId messageText author
  else
    upload_mode w channelID previousMsgThreadId author
      (JS.or_else (getInput w "screenshots") "cypress/screenshots")
      (JS.or_else (getInput w "videos") "cypress/videos").

(** One group of uploads: lines 175-192 for the screenshots, lines 194-211
    for the videos; [note] is the end of the note logged first. *)
Definition upload_group (w : World) (dir previousMsgThreadId channelID : string)
    (note : string) (paths : list string) : Eff unit :=
  (if (0 <? length paths)%nat then
     core.info ("Uploading " +:+ JS.of_nat (length paths) +:+ note) ;;
     upload_all w dir previousMsgThreadId channelID paths ;;
     core.info "...done!"
   else ret tt)%eff.

(** The upload calls of a group, one per path, in the order of the paths. *)
Definition uploads (dir previousMsgThreadId channelID : string)
    (paths : list string) : list Slack.call :=
  map (fun path =>
         Slack.FilesUpload (upload_args dir previousMsgThreadId channelID path))
      paths.

(** The promises of a group: settle time and completion of each upload. *)
Definition promises (w : World) (dir previousMsgThreadId channelID : string)
    (paths : list string) : list (nat * completion unit) :=
  map (fun path =>
         files_upload w (upload_args dir previousMsgThreadId channelID path))
      paths.

(** The same invocation against other remote answers or another disk. *)
Definition with_listing (w : World)
    (listing : completion (option (list Slack.Channel))) : World :=
  {| inputs := inputs w;
     process_env := process_env w;
     conversations_list := listing;
     chat_postMessage := chat_postMessage w;
     chat_update := chat_update w;
     files_upload := files_upload w;
     walkSync := walkSync w |}.

Definition with_update (w : World)
    (update : Slack.UpdateArgs -> completion unit) : World :=
  {| inputs := inputs w;
     process_env := process_env w;
     conversations_list := conversations_list w;
     chat_postMessage := chat_postMessage w;
     chat_update := update;
     files_upload := files_upload w;
     walkSync := walkSync w |}.

Definition with_disk (w : World)
    (walk : string -> list string -> completion (list string))
    (upload : Slack.UploadArgs -> nat * completion unit) : World :=
  {| inputs := inputs w;
     process_env := process_env w;
     conversations_list := conversations_list w;
     chat_postMessage := chat_postMessage w;
     chat_update := chat_update w;
     files_upload := upload;
     walkSync := walk |}.

(** The calls the upload path can issue: the pointer post, or an upload from
    one of the two directories into the thread. *)
Definition upload_call (channelID previousMsgThreadId author : string)
    (screenshotsDir videosDir : string) (c : Slack.call) : Prop :=
  c = Slack.ChatPostMessage
        (pointer_message channelID previousMsgThreadId author)
  \/ (exists path,
        c = Slack.FilesUpload
              (upload_args screenshotsDir previousMsgThreadId channelID path))
  \/ (exists path,
        c = Slack.FilesUpload
              (upload_args videosDir previousMsgThreadId channelID path)).

(** The last event of a trace. *)
Definition last_event (tr : list event) : option event := last tr.

(** ** Sample invocations *)

Module Sample.

Definition listing : list Slack.Channel :=
  [ {| Slack.id := Some "C0GENERAL"; Slack.name := Some "general" |};
    {| Slack.id := Some "C1CI"; Slack.name := Some "ci" |};
    {| Slack.id := Some "C2CI"; Slack.name := Some "ci" |} ].

(** A checkout after a failed Cypress run, and one where Cypress never ran. *)
Definition disk : gmap string (list string) :=
  list_to_map [ ("cypress/screenshots", ["login/fail.png"; "login/notes.txt"]);
                ("cypress/videos", ["login.mp4"]) ].

Definition bare_disk : gmap string (list string) := ∅.

Definition stale_disk : gmap string (list string) :=
  list_to_map [ ("cypress/screenshots", ["README.md"]);
                ("cypress/videos", []) ].

Definition full_disk : gmap string (list string) :=
  list_to_map [ ("cypress/screenshots",
                 ["cart/empty.png"; "login/fail.png"; "login/notes.txt"]);
                ("cypress/videos", ["cart.mp4"; "login.mp4"]) ].

(** An invocation: its inputs, the disk, what [chat.postMessage] answers,
    and the uploads that are rejected (by file name, with settle time and
    message); every other upload is fulfilled at time 0. *)
Definition world (ins : list (string * string))
    (fs : gmap string (list string)) (post : completion (option string))
    (rejected : list (string * (nat * string))) : World :=
  {| inputs := list_to_map ins;
     process_env :=
       list_to_map [ ("GITHUB_SERVER_URL", "https://github.com");
                     ("GITHUB_REPOSITORY", "acme/shop");
                     ("GITHUB_RUN_ID", "42") ];
     conversations_list := Normal (Some listing);
     chat_postMessage := fun _ => post;
     chat_update := fun _ => Normal tt;
     files_upload := fun args =>
       match (list_to_map rejected : gmap string (nat * string))
               !! Slack.filename args with
       | Some (t, message) => (t, Throw message)
       | None => (0, Normal tt)
       end;
     walkSync := FS.walkSync fs |}.

Definition lower_start : World :=
  world [ ("action", "start"); ("channel", "ci"); ("author", "alice");
          ("message-text", "Deploy") ]
        disk (Normal (Some "1690000000.1")) [].

Definition upper_start : World :=
  world [ ("action", "START"); ("channel", "ci"); ("author", "alice");
          ("message-text", "Deploy") ]
        disk (Normal (Some "1690000000.1")) [].

Definition upload_no_thread : World :=
  world [ ("action", "upload"); ("channel", "ci"); ("author", "alice") ]
        disk (Normal (Some "1690000000.2")) [].

Definition upload_post_fails : World :=
  world [ ("action", "upload"); ("channel", "ci"); ("author", "alice");
          ("thread-id", "1690000000.1") ]
        disk (Throw "thread_not_found") [].

Definition upload_screenshot_rejected : World :=
  world [ ("action", "Upload"); ("channel", "ci"); ("author", "alice");
          ("thread-id", "1690000000.1") ]
        disk (Normal (Some "1690000000.2"))
        [ ("login/fail.png", (7, "file_too_large")) ].

Definition upload_full : World :=
  world [ ("action", "upload"); ("channel", "ci"); ("author", "alice");
          ("thread-id", "1690000000.1") ]
        full_disk (Normal (Some "1690000000.2")) [].

Definition upload_videos_rejected : World :=
  world [ ("action", "upload"); ("channel", "ci"); ("author", "alice");
          ("thread-id", "1690000000.1") ]
        full_disk (Normal (Some "1690000000.2"))
        [ ("cart.mp4", (9, "rate_limited"));
          ("login.mp4", (4, "file_too_large")) ].

Definition upload_bare : World :=
  world [ ("action", "upload"); ("channel", "ci"); ("author", "alice");
          ("thread-id", "1690000000.1") ]
        bare_disk (Normal (Some "1690000000.2")) [].

Definition upload_stale : World :=
  world [ ("action", "UPLOAD"); ("channel", "ci"); ("author", "alice");
          ("thread-id", "1690000000.1") ]
        stale_disk (Normal (Some "1690000000.2")) [].

Definition finish_failure : World :=
  world [ ("action", "finish"); ("channel", "ci"); ("author", "alice");
          ("message-text", "Deploy"); ("status", "failure");
          ("thread-id", "169000.1") ]
        disk (Normal None) [].

Definition finish_unset : World :=
  world [ ("action", "finish"); ("channel", "ci"); ("author", "alice");
          ("message-text", "Deploy"); ("thread-id", "169000.1") ]
        disk (Normal None) [].

Definition unknown_channel : World :=
  world [ ("action", "start"); ("channel", "CI"); ("author", "alice");
          ("message-text", "Deploy") ]
        disk (Normal (Some "1690000000.1")) [].

Definition videos_disk : gmap string (list string) :=
  list_to_map [ ("cypress/screenshots", []);
                ("cypress/videos", ["checkout.mp4"; "login.mp4"]) ].

Definition upload_videos_only : World :=
  world [ ("action", "upload"); ("channel", "ci"); ("author", "alice");
          ("thread-id", "1690000000.1") ]
        videos_disk (Normal (Some "1690000000.2")) [].

Definition start_post_fails : World :=
  world [ ("action", "start"); ("channel", "ci"); ("author", "alice");
          ("message-text", "Deploy") ]
        disk (Throw "not_in_channel") [].

Definition listing_fails : World :=
  with_listing lower_start (Throw "invalid_auth").

Definition channel_without_id : World :=
  with_listing lower_start
    (Normal (Some [ {| Slack.id := None; Slack.name := Some "ci" |};
                    {| Slack.id := Some "C2CI"; Slack.name := Some "ci" |} ])).

Definition finish_update_fails : World :=
  with_update finish_failure (fun _ => Throw "message_not_found").

(** A disk whose walk throws, as for a root that cannot be read. *)
Definition upload_walk_throws : World :=
  with_disk upload_full
    (fun baseDir _ => Throw ("ENOENT: no such file or directory, scandir '"
                             +:+ baseDir +:+ "'"))
    (files_upload upload_full).

Definition no_action : World :=
  world [ ("channel", "ci"); ("author", "alice") ]
        disk (Normal (Some "1690000000.1")) [].

End Sample.

(** * Properties *)

(** ** Inputs, lists and traces *)

Example toLowerCase_mixed : JS.toLowerCase "FiNiSh-1@[`{" = "finish-1@[`{".
Proof. reflexivity. Qed.

Example walk_filters_by_extension :
  FS.walkSync Sample.full_disk "cypress/screenshots" ["**/*.png"]
  = Normal ["cart/empty.png"; "login/fail.png"].
Proof. reflexivity. Qed.

Example walk_skips_hidden_keeps_directories :
  FS.walkSync
    (list_to_map
       [ ("shots", [ ".cache/a.png"; "a/.b.png"; "dir.png/"; "x.png";
                     "y.txt" ]) ])
    "shots" ["**/*.png"]
  = Normal ["dir.png/"; "x.png"].
Proof. reflexivity. Qed.

Example walk_of_absent_root_throws :
  FS.walkSync Sample.bare_disk "cypress/videos" ["**/*.mp4"]
  = Throw "ENOENT: no such file or directory, lstat 'cypress/videos'".
Proof. reflexivity. Qed.

(** Of two rejections the one that settles first is reported, whatever the
    order in which the uploads were issued. *)
Example Promise_all_earliest :
  Promise_all [(9, Throw "rate_limited"); (2, Normal tt);
               (4, Throw "file_too_large")]
  = Throw "file_too_large".
Proof. reflexivity. Qed.

Lemma or_else_empty (a : string) : JS.or_else a "" = a.
Proof.
  unfold JS.or_else. destruct (String.eqb_spec a ""); congruence.
Qed.

Lemma calls_app (tr1 tr2 : list event) :
  calls (tr1 ++ tr2) = calls tr1 ++ calls tr2.
Proof. unfold calls. apply flat_map_app. Qed.

Lemma failures_app (tr1 tr2 : list event) :
  failures (tr1 ++ tr2) = failures tr1 ++ failures tr2.
Proof. unfold failures. apply flat_map_app. Qed.

Lemma outputs_app (tr1 tr2 : list event) :
  outputs (tr1 ++ tr2) = outputs tr1 ++ outputs tr2.
Proof. unfold outputs. apply flat_map_app. Qed.

Lemma calls_Info (message : string) (tr : list event) :
  calls (Info message :: tr) = calls tr.
Proof. reflexivity. Qed.

Lemma calls_Remote (c : Slack.call) (tr : list event) :
  calls (Remote c :: tr) = c :: calls tr.
Proof. reflexivity. Qed.

Lemma failures_Info (message : string) (tr : list event) :
  failures (Info message :: tr) = failures tr.
Proof. reflexivity. Qed.

Lemma failures_Remote (c : Slack.call) (tr : list event) :
  failures (Remote c :: tr) = failures tr.
Proof. reflexivity. Qed.

Lemma outputs_Info (message : string) (tr : list event) :
  outputs (Info message :: tr) = outputs tr.
Proof. reflexivity. Qed.

Lemma outputs_Remote (c : Slack.call) (tr : list event) :
  outputs (Remote c :: tr) = outputs tr.
Proof. reflexivity. Qed.

Lemma calls_preamble (w : World) : calls (preamble w) = [].
Proof. reflexivity. Qed.

Lemma failures_preamble (w : World) : failures (preamble w) = [].
Proof. reflexivity. Qed.

Lemma outputs_preamble (w : World) : outputs (preamble w) = [].
Proof. reflexivity. Qed.

(** ** Validation (lines 44-55) *)

(** An action outside the three names stops the run before anything else. *)
Lemma run_unknown_action (w : World) :
  valid_action (getInput w "action") = false ->
  run w = (preamble w
             ++ [SetFailed ("Unknown action: " +:+ getInput w "action")],
           Normal tt).
Proof.
  unfold valid_action. intros Hv. unfold run. rewrite Hv. reflexivity.
Qed.

(** A missing thread identifier stops [upload] and [finish] at the second
    check, which comes before the client is even constructed. *)
Lemma run_missing_thread (w : World) :
  valid_action (getInput w "action") = true ->
  needs_thread (getInput w "action") = true ->
  getInput w "thread-id" = "" ->
  run w = (preamble w
             ++ [SetFailed ("Action: " +:+ getInput w "action"
                            +:+ " requires thread-id.")],
           Normal tt).
Proof.
  unfold valid_action, needs_thread. intros Hv Hn Ht.
  unfold run, preamble. rewrite Hv, Hn, Ht. reflexivity.
Qed.

(** ** Channel resolution (lines 6-23) *)

Lemma getChannelId_found (w : World) (channelName : string)
    (result : option (list Slack.Channel)) (channel : Slack.Channel) :
  conversations_list w = Normal result ->
  find (name_is channelName) (default [] result) = Some channel ->
  getChannelId w channelName
  = ([Remote Slack.ConversationsList], Normal (Slack.id channel)).
Proof.
  intros Hl Hf. unfold getChannelId, await. rewrite Hl. cbn. rewrite Hf.
  reflexivity.
Qed.

Lemma getChannelId_not_found (w : World) (channelName : string)
    (result : option (list Slack.Channel)) :
  conversations_list w = Normal result ->
  find (name_is channelName) (default [] result) = None ->
  getChannelId w channelName
  = ([Remote Slack.ConversationsList;
      SetFailed ("Channel '" +:+ channelName +:+ "' not found.")],
     Normal None).
Proof.
  intros Hl Hf. unfold getChannelId, await. rewrite Hl. cbn. rewrite Hf.
  reflexivity.
Qed.

Lemma getChannelId_throws (w : World) (channelName message : string) :
  conversations_list w = Throw message ->
  getChannelId w channelName
  = ([Remote Slack.ConversationsList;
      SetFailed ("Failed to fetch channel ID: " +:+ message)],
     Normal None).
Proof.
  intros Hl. unfold getChannelId, await. rewrite Hl. reflexivity.
Qed.

(** [getChannelId] never throws, and issues the listing call and nothing
    else. *)
Lemma getChannelId_total (w : World) (channelName : string) :
  exists v, snd (getChannelId w channelName) = Normal v
            /\ calls (fst (getChannelId w channelName))
               = [Slack.ConversationsList].
Proof.
  destruct (conversations_list w) as [result|message] eqn:Hl.
  - destruct (find (name_is channelName) (default [] result)) as [c|] eqn:Hf.
    + rewrite (getChannelId_found _ _ _ _ Hl Hf). eauto.
    + rewrite (getChannelId_not_found _ _ _ Hl Hf). eauto.
  - rewrite (getChannelId_throws _ _ _ Hl). eauto.
Qed.

Lemma getChannelId_resolved (w : World) (channelID : string) :
  resolves_to w channelID ->
  getChannelId w (getInput w "channel")
  = ([Remote Slack.ConversationsList], Normal (Some channelID)).
Proof.
  intros [Hr _]. revert Hr.
  destruct (conversations_list w) as [result|message] eqn:Hl.
  - destruct (find (name_is (getInput w "channel")) (default [] result))
      as [c|] eqn:Hf.
    + rewrite (getChannelId_found _ _ _ _ Hl Hf). cbn. congruence.
    + rewrite (getChannelId_not_found _ _ _ Hl Hf). cbn. congruence.
  - rewrite (getChannelId_throws _ _ _ Hl). cbn. congruence.
Qed.

Lemma truthy_nonempty (s : string) : s <> "" -> truthy (Some s) = Some s.
Proof.
  intros Hs. cbn. destruct (String.eqb_spec s ""); congruence.
Qed.

(** ** Dispatch (lines 70-152) *)

Lemma run_resolved (w : World) (channelID : string) :
  valid_action (getInput w "action") = true ->
  needs_thread (getInput w "action") && String.eqb (getInput w "thread-id") ""
  = false ->
  resolves_to w channelID ->
  run w
  = (preamble w ++ sdk_notes ++ [Remote Slack.ConversationsList]
       ++ fst (try_catch (branch w channelID) core.setFailed),
     snd (try_catch (branch w channelID) core.setFailed)).
Proof.
  unfold valid_action, needs_thread. intros Hv Hn Hr.
  unfold run, branch, preamble. rewrite !or_else_empty, Hv, Hn.
  rewrite (getChannelId_resolved _ _ Hr).
  cbn [negb core.info emit bind app].
  rewrite (truthy_nonempty _ (proj2 Hr)).
  set (b := if String.eqb (getInput w "action") "start" then _ else _).
  destruct b as [tr [[]|message]]; reflexivity.
Qed.

Lemma run_unresolved (w : World) (v : option string) :
  valid_action (getInput w "action") = true ->
  needs_thread (getInput w "action") && String.eqb (getInput w "thread-id") ""
  = false ->
  snd (getChannelId w (getInput w "channel")) = Normal v ->
  truthy v = None ->
  run w
  = (preamble w ++ sdk_notes ++ fst (getChannelId w (getInput w "channel")),
     Normal tt).
Proof.
  unfold valid_action, needs_thread. intros Hv Hn Hc Ht.
  unfold run, preamble. rewrite !or_else_empty, Hv, Hn.
  destruct (getChannelId w (getInput w "channel")) as [trc r].
  cbn in Hc. subst r.
  cbn [negb core.info emit bind app]. rewrite Ht. cbn.
  rewrite app_nil_r. reflexivity.
Qed.

(** What the top-level [catch] adds to a trace: one [setFailed] when the body
    threw, nothing otherwise; never a remote call or an output. *)
Lemma calls_try_catch (m : Eff unit) :
  calls (fst (try_catch m core.setFailed)) = calls (fst m).
Proof.
  destruct m as [tr [a|message]]; cbn; [reflexivity|].
  rewrite calls_app. cbn. apply app_nil_r.
Qed.

Lemma outputs_try_catch (m : Eff unit) :
  outputs (fst (try_catch m core.setFailed)) = outputs (fst m).
Proof.
  destruct m as [tr [a|message]]; cbn; [reflexivity|].
  rewrite outputs_app. cbn. apply app_nil_r.
Qed.

Lemma failures_try_catch (m : Eff unit) :
  failures (fst (try_catch m core.setFailed))
  = failures (fst m)
      ++ match snd m with Throw message => [message] | Normal _ => [] end.
Proof.
  destruct m as [tr [a|message]]; cbn.
  - symmetry. apply app_nil_r.
  - rewrite failures_app. reflexivity.
Qed.

Lemma snd_try_catch (m : Eff unit) :
  snd (try_catch m core.setFailed) = Normal tt.
Proof. destruct m as [tr [[]|message]]; reflexivity. Qed.

(** [run] itself never throws. *)
Lemma run_total (w : World) : snd (run w) = Normal tt.
Proof. unfold run. apply snd_try_catch. Qed.

Lemma fst_bind {A B} (m : Eff A) (k : A -> Eff B) :
  fst (bind m k)
  = fst m ++ match snd m with Normal a => fst (k a) | Throw _ => [] end.
Proof.
  destruct m as [tr [a|message]]; cbn.
  - destruct (k a). reflexivity.
  - symmetry. apply app_nil_r.
Qed.

Lemma snd_bind {A B} (m : Eff A) (k : A -> Eff B) :
  snd (bind m k)
  = match snd m with Normal a => snd (k a) | Throw message => Throw message end.
Proof.
  destruct m as [tr [a|message]]; cbn; [|reflexivity].
  destruct (k a). reflexivity.
Qed.

(** ** [Promise.all] *)

Lemma first_rejection_none (ps : list (nat * completion unit)) :
  (forall p, In p ps -> snd p = Normal tt) -> first_rejection ps = None.
Proof.
  induction ps as [|[t [[]|message]] ps IH]; intros Hall; cbn.
  - reflexivity.
  - apply IH. intros p Hp. apply Hall. now right.
  - specialize (Hall (t, Throw message) (or_introl eq_refl)). discriminate.
Qed.

Lemma first_rejection_None (ps : list (nat * completion unit)) :
  first_rejection ps = None ->
  forall t message, ~ In (t, Throw message) ps.
Proof.
  induction ps as [|[t0 [[]|m0]] ps IH]; cbn [first_rejection]; intros Hf t m.
  - intros [].
  - intros [Heq|Hin]; [discriminate|]. exact (IH Hf t m Hin).
  - destruct (first_rejection ps) as [[t1 m1]|];
      [destruct (t1 <? t0)%nat|]; discriminate.
Qed.

(** The rejection picked is one of the promises', and none settles
    earlier. *)
Lemma first_rejection_Some (ps : list (nat * completion unit))
    (t : nat) (message : string) :
  first_rejection ps = Some (t, message) ->
  In (t, Throw message) ps
  /\ forall t' message', In (t', Throw message') ps -> (t <= t')%nat.
Proof.
  revert t message.
  induction ps as [|[t0 [[]|m0]] ps IH]; cbn [first_rejection]; intros t m Hf.
  - discriminate.
  - destruct (IH _ _ Hf) as [Hin Hmin]. split; [now right|].
    intros t' m' [Heq|Hin']; [discriminate|eauto].
  - destruct (first_rejection ps) as [[t1 m1]|] eqn:Hf1.
    + destruct (IH _ _ eq_refl) as [Hin Hmin].
      destruct (Nat.ltb_spec t1 t0) as [Hlt|Hge]; inversion Hf; subst.
      * split; [now right|].
        intros t' m' [Heq|Hin']; [inversion Heq; subst; lia|eauto].
      * split; [now left|].
        intros t' m' [Heq|Hin']; [inversion Heq; subst; lia|].
        specialize (Hmin _ _ Hin'). lia.
    + inversion Hf; subst. split; [now left|].
      intros t' m' [Heq|Hin']; [inversion Heq; subst; lia|].
      destruct (first_rejection_None _ Hf1 _ _ Hin').
Qed.

Lemma first_rejection_some (ps : list (nat * completion unit)) :
  (exists p message, In p ps /\ snd p = Throw message) ->
  exists t message,
    first_rejection ps = Some (t, message)
    /\ In (t, Throw message) ps
    /\ forall t' message', In (t', Throw message') ps -> (t <= t')%nat.
Proof.
  intros ([t0 r] & m & Hin & Hp). cbn in Hp. subst r.
  destruct (first_rejection ps) as [[t1 m1]|] eqn:Hf.
  - exists t1, m1. split; [reflexivity|]. now apply first_rejection_Some.
  - destruct (first_rejection_None _ Hf _ _ Hin).
Qed.

Lemma Promise_all_fulfils (ps : list (nat * completion unit)) :
  (forall p, In p ps -> snd p = Normal tt) -> Promise_all ps = Normal tt.
Proof.
  intros Hall. unfold Promise_all. now rewrite first_rejection_none.
Qed.

Lemma Promise_all_rejects (ps : list (nat * completion unit)) :
  (exists p message, In p ps /\ snd p = Throw message) ->
  exists t message,
    Promise_all ps = Throw message
    /\ In (t, Throw message) ps
    /\ forall t' message', In (t', Throw message') ps -> (t <= t')%nat.
Proof.
  intros Hex. destruct (first_rejection_some ps Hex) as (t & m & Hf & Hin & Hmin).
  exists t, m. unfold Promise_all. rewrite Hf. auto.
Qed.

(** ** Uploads (lines 154-211) *)

Section Uploads.

Variable w : World.
Variables dir previousMsgThreadId channelID : string.

Lemma upload_all_eq (paths : list string) :
  upload_all w dir previousMsgThreadId channelID paths
  = (concat (map (fun path =>
                    [Info ("Uploading " +:+ path);
                     Remote (Slack.FilesUpload
                               (upload_args dir previousMsgThreadId channelID
                                  path))]) paths),
     Promise_all (promises w dir previousMsgThreadId channelID paths)).
Proof.
  unfold upload_all, promises. rewrite !map_map. reflexivity.
Qed.

Lemma calls_upload_all (paths : list string) :
  calls (fst (upload_all w dir previousMsgThreadId channelID paths))
  = uploads dir previousMsgThreadId channelID paths.
Proof.
  rewrite upload_all_eq. cbn [fst].
  induction paths as [|path paths IH]; [reflexivity|].
  cbn. f_equal. exact IH.
Qed.

Lemma failures_upload_all (paths : list string) :
  failures (fst (upload_all w dir previousMsgThreadId channelID paths)) = [].
Proof.
  rewrite upload_all_eq. cbn [fst].
  induction paths as [|path paths IH]; [reflexivity|exact IH].
Qed.

Lemma outputs_upload_all (paths : list string) :
  outputs (fst (upload_all w dir previousMsgThreadId channelID paths)) = [].
Proof.
  rewrite upload_all_eq. cbn [fst].
  induction paths as [|path paths IH]; [reflexivity|exact IH].
Qed.

(** Split a group on its list of paths and on how [upload_all] ends. *)
Ltac split_group paths :=
  unfold upload_group;
  destruct paths as [|path paths]; [reflexivity|];
  cbn [length Nat.ltb Nat.leb];
  generalize (calls_upload_all (path :: paths));
  generalize (failures_upload_all (path :: paths));
  generalize (outputs_upload_all (path :: paths));
  rewrite (upload_all_eq (path :: paths));
  generalize (path :: paths); intros paths';
  cbn [fst]; intros Houtputs Hfailures Hcalls;
  unfold bind, core.info, emit;
  destruct (Promise_all _) as [[]|message].

Lemma snd_upload_group (note : string) (paths : list string) :
  snd (upload_group w dir previousMsgThreadId channelID note paths)
  = Promise_all (promises w dir previousMsgThreadId channelID paths).
Proof.
  unfold upload_group. destruct paths as [|path paths]; [reflexivity|].
  cbn [length Nat.ltb Nat.leb]. rewrite upload_all_eq.
  unfold bind, core.info, emit.
  destruct (Promise_all _) as [[]|message]; reflexivity.
Qed.

Lemma calls_upload_group (note : string) (paths : list string) :
  calls (fst (upload_group w dir previousMsgThreadId channelID note paths))
  = uploads dir previousMsgThreadId channelID paths.
Proof.
  split_group paths; cbn [fst app];
    rewrite calls_Info, ?calls_app, Hcalls; cbn; now rewrite ?app_nil_r.
Qed.

Lemma failures_upload_group (note : string) (paths : list string) :
  failures (fst (upload_group w dir previousMsgThreadId channelID note paths))
  = [].
Proof.
  split_group paths; cbn [fst app];
    rewrite failures_Info, ?failures_app, Hfailures; reflexivity.
Qed.

Lemma outputs_upload_group (note : string) (paths : list string) :
  outputs (fst (upload_group w dir previousMsgThreadId channelID note paths))
  = [].
Proof.
  split_group paths; cbn [fst app];
    rewrite outputs_Info, ?outputs_app, Houtputs; reflexivity.
Qed.

End Uploads.

Section UploadMode.

Variable w : World.
Variables channelID previousMsgThreadId author : string.
Variables screenshotsDir videosDir : string.

Local Abbreviation pointer :=
  (pointer_message channelID previousMsgThreadId author).
Local Abbreviation the_upload_mode :=
  (upload_mode w channelID previousMsgThreadId author screenshotsDir videosDir).

Lemma upload_mode_videos_walk_throws (message : string) :
  walkSync w videosDir ["**/*.mp4"] = Throw message ->
  the_upload_mode
  = ([Info "Checking for videos and/or screenshots from cypress"],
     Throw message).
Proof. intros Hv. unfold upload_mode. rewrite Hv. reflexivity. Qed.

Lemma upload_mode_screenshots_walk_throws (videos : list string)
    (message : string) :
  walkSync w videosDir ["**/*.mp4"] = Normal videos ->
  walkSync w screenshotsDir ["**/*.png"] = Throw message ->
  the_upload_mode
  = ([Info "Checking for videos and/or screenshots from cypress"],
     Throw message).
Proof. intros Hv Hs. unfold upload_mode. rewrite Hv, Hs. reflexivity. Qed.

Lemma upload_mode_nothing_found :
  walkSync w videosDir ["**/*.mp4"] = Normal [] ->
  walkSync w screenshotsDir ["**/*.png"] = Normal [] ->
  the_upload_mode
  = ([Info "Checking for videos and/or screenshots from cypress";
      Info "No videos or screenshots found. Exiting!"],
     Normal tt).
Proof. intros Hv Hs. unfold upload_mode. rewrite Hv, Hs. reflexivity. Qed.

Variables videos screenshots : list string.
Hypothesis Hvideos : walkSync w videosDir ["**/*.mp4"] = Normal videos.
Hypothesis Hscreenshots :
  walkSync w screenshotsDir ["**/*.png"] = Normal screenshots.
Hypothesis Hfound :
  (length videos <=? 0)%nat && (length screenshots <=? 0)%nat = false.

Lemma upload_mode_post_throws (message : string) :
  chat_postMessage w pointer = Throw message ->
  the_upload_mode
  = ([Info "Checking for videos and/or screenshots from cypress";
      Remote (Slack.ChatPostMessage pointer)],
     Throw message).
Proof.
  intros Hp. unfold upload_mode. rewrite Hvideos, Hscreenshots.
  cbn [core.info emit lift bind app]. rewrite Hfound.
  unfold await. rewrite Hp. reflexivity.
Qed.

(** After a successful pointer post the two groups run one after the other,
    the videos only if the screenshots' [Promise.all] fulfils. *)
Lemma upload_mode_posted (ts : option string) :
  chat_postMessage w pointer = Normal ts ->
  let groups :=
    bind (upload_group w screenshotsDir previousMsgThreadId channelID
            " screenshots" screenshots)
         (fun _ => upload_group w videosDir previousMsgThreadId channelID
                     " videos" videos) in
  the_upload_mode
  = (Info "Checking for videos and/or screenshots from cypress"
       :: Remote (Slack.ChatPostMessage pointer)
       :: Info ("Found " +:+ JS.of_nat (length videos) +:+ " videos and "
                +:+ JS.of_nat (length screenshots) +:+ " screenshots")
       :: fst groups,
     snd groups).
Proof.
  intros Hp groups. unfold upload_mode. rewrite Hvideos, Hscreenshots.
  cbn [core.info emit lift bind app]. rewrite Hfound.
  unfold await. rewrite Hp. subst groups. unfold upload_group.
  destruct (upload_all w screenshotsDir _ _ screenshots) as [trS [[]|mS]];
    destruct (upload_all w videosDir _ _ videos) as [trV [[]|mV]];
    destruct (0 <? length screenshots)%nat;
    destruct (0 <? length videos)%nat; reflexivity.
Qed.

End UploadMode.

(** ** The three ways through [run] *)

Lemma lower_upload (action : string) :
  JS.toLowerCase action = "upload" ->
  valid_action action = true /\ needs_thread action = true
  /\ String.eqb action "start" = false /\ String.eqb action "finish" = false.
Proof.
  intros Hl. unfold valid_action, needs_thread. rewrite Hl.
  repeat split; try reflexivity.
  - destruct (String.eqb_spec action "start"); [subst; discriminate|reflexivity].
  - destruct (String.eqb_spec action "finish"); [subst; discriminate|reflexivity].
Qed.

Lemma lower_finish (action : string) :
  JS.toLowerCase action = "finish" ->
  valid_action action = true /\ needs_thread action = true.
Proof.
  intros Hl. unfold valid_action, needs_thread. rewrite Hl. split; reflexivity.
Qed.

Lemma thread_given (w : World) :
  getInput w "thread-id" <> "" ->
  forall b, b && String.eqb (getInput w "thread-id") "" = false.
Proof.
  intros Ht b. destruct (String.eqb_spec (getInput w "thread-id") "");
    [contradiction|apply andb_false_r].
Qed.

Lemma run_start (w : World) (channelID : string) :
  getInput w "action" = "start" ->
  resolves_to w channelID ->
  run w
  = (preamble w ++ sdk_notes ++ [Remote Slack.ConversationsList]
       ++ fst (try_catch
                 (start_mode w channelID (getInput w "message-text")
                    (getInput w "author")) core.setFailed),
     Normal tt).
Proof.
  intros Ha Hr. rewrite (run_resolved w channelID); [| | |exact Hr].
  - rewrite snd_try_catch. unfold branch. rewrite Ha. reflexivity.
  - rewrite Ha. reflexivity.
  - rewrite Ha. reflexivity.
Qed.

Lemma run_finish (w : World) (channelID : string) :
  getInput w "action" = "finish" ->
  getInput w "thread-id" <> "" ->
  resolves_to w channelID ->
  run w
  = (preamble w ++ sdk_notes ++ [Remote Slack.ConversationsList]
       ++ fst (try_catch
                 (finish_mode w channelID (getInput w "thread-id")
                    (getInput w "message-text") (getInput w "author"))
                 core.setFailed),
     Normal tt).
Proof.
  intros Ha Ht Hr. rewrite (run_resolved w channelID); [| | |exact Hr].
  - rewrite snd_try_catch. unfold branch. rewrite Ha. reflexivity.
  - rewrite Ha. reflexivity.
  - apply thread_given, Ht.
Qed.

Lemma run_upload (w : World) (channelID : string) :
  JS.toLowerCase (getInput w "action") = "upload" ->
  getInput w "thread-id" <> "" ->
  resolves_to w channelID ->
  run w
  = (preamble w ++ sdk_notes ++ [Remote Slack.ConversationsList]
       ++ fst (try_catch
                 (upload_mode w channelID (getInput w "thread-id")
                    (getInput w "author")
                    (JS.or_else (getInput w "screenshots")
                       "cypress/screenshots")
                    (JS.or_else (getInput w "videos") "cypress/videos"))
                 core.setFailed),
     Normal tt).
Proof.
  intros Ha Ht Hr. destruct (lower_upload _ Ha) as (Hv & Hn & Hs & Hf).
  rewrite (run_resolved w channelID); [|exact Hv|apply thread_given, Ht|exact Hr].
  rewrite snd_try_catch. unfold branch. rewrite Hs, Hf. reflexivity.
Qed.

(** A valid action that is neither ['start'] nor ['finish'] as written takes
    the upload path, whatever its lowered form. *)
Lemma run_falls_through (w : World) (channelID : string) :
  valid_action (getInput w "action") = true ->
  needs_thread (getInput w "action") && String.eqb (getInput w "thread-id") ""
  = false ->
  getInput w "action" <> "start" ->
  getInput w "action" <> "finish" ->
  resolves_to w channelID ->
  run w
  = (preamble w ++ sdk_notes ++ [Remote Slack.ConversationsList]
       ++ fst (try_catch
                 (upload_mode w channelID (getInput w "thread-id")
                    (getInput w "author")
                    (JS.or_else (getInput w "screenshots")
                       "cypress/screenshots")
                    (JS.or_else (getInput w "videos") "cypress/videos"))
                 core.setFailed),
     Normal tt).
Proof.
  intros Hv Hn Hs Hf Hr.
  rewrite (run_resolved w channelID Hv Hn Hr).
  rewrite snd_try_catch. unfold branch.
  destruct (String.eqb_spec (getInput w "action") "start"); [contradiction|].
  destruct (String.eqb_spec (getInput w "action") "finish"); [contradiction|].
  reflexivity.
Qed.

(** The calls, failures and outputs of a run that reached its branch. *)
Ltac read_run :=
  unfold trace, sdk_notes; cbn [fst snd];
  rewrite ?calls_app, ?failures_app, ?outputs_app,
    ?calls_try_catch, ?failures_try_catch, ?outputs_try_catch,
    ?calls_preamble, ?failures_preamble, ?outputs_preamble;
  cbn [fst snd app];
  repeat first
    [ rewrite calls_Info | rewrite calls_Remote
    | rewrite failures_Info | rewrite failures_Remote
    | rewrite outputs_Info | rewrite outputs_Remote ].

(** A walk that throws is caught at the top: the run is marked failed with
    the error's message, after the listing call and nothing else. *)
Lemma run_upload_walk_throws (w : World) (channelID message : string) :
  JS.toLowerCase (getInput w "action") = "upload" ->
  getInput w "thread-id" <> "" ->
  resolves_to w channelID ->
  walkSync w (JS.or_else (getInput w "videos") "cypress/videos")
    ["**/*.mp4"] = Throw message ->
  calls (trace (run w)) = [Slack.ConversationsList]
  /\ failures (trace (run w)) = [message].
Proof.
  intros Ha Ht Hr Hv.
  rewrite (run_upload w channelID Ha Ht Hr).
  rewrite (upload_mode_videos_walk_throws _ _ _ _ _ _ _ Hv).
  split; read_run; reflexivity.
Qed.

(** The two groups in sequence: what they call and how they end. *)
Lemma groups_read (w : World)
    (screenshotsDir videosDir previousMsgThreadId channelID : string)
    (screenshots videos : list string) :
  let groups :=
    bind (upload_group w screenshotsDir previousMsgThreadId channelID
            " screenshots" screenshots)
         (fun _ => upload_group w videosDir previousMsgThreadId channelID
                     " videos" videos) in
  let first := Promise_all (promises w screenshotsDir previousMsgThreadId
                              channelID screenshots) in
  calls (fst groups)
  = uploads screenshotsDir previousMsgThreadId channelID screenshots
      ++ match first with
         | Normal _ => uploads videosDir previousMsgThreadId channelID videos
         | Throw _ => []
         end
  /\ failures (fst groups) = []
  /\ snd groups
     = match first with
       | Normal _ => Promise_all (promises w videosDir previousMsgThreadId
                                    channelID videos)
       | Throw message => Throw message
       end.
Proof.
  intros groups first. subst groups first.
  rewrite fst_bind, snd_bind, calls_app, failures_app.
  rewrite calls_upload_group, failures_upload_group, snd_upload_group.
  destruct (Promise_all _) as [[]|message].
  - rewrite calls_upload_group, failures_upload_group, snd_upload_group.
    repeat split.
  - repeat split.
Qed.

Lemma promises_nonempty (w : World) (dir thr cid : string)
    (paths other : list string) (p : nat * completion unit) :
  In p (promises w dir thr cid paths) ->
  ((length other <=? 0)%nat && (length paths <=? 0)%nat = false)
  /\ ((length paths <=? 0)%nat && (length other <=? 0)%nat = false).
Proof.
  destruct paths as [|path paths]; [intros []|intros _].
  split; [apply andb_false_r|reflexivity].
Qed.

(** ** The finish message *)

Lemma is_success_status (s : string) :
  is_success (status_or_false s) = String.eqb s "success".
Proof.
  unfold status_or_false. destruct (String.eqb_spec s ""); [subst|]; reflexivity.
Qed.

(** ** Finding a channel by name *)

Lemma find_first (channelName : string)
    (before after : list Slack.Channel) (channel : Slack.Channel) :
  Slack.name channel = Some channelName ->
  (forall c, In c before -> Slack.name c <> Some channelName) ->
  find (name_is channelName) (before ++ channel :: after) = Some channel.
Proof.
  intros Hn Hb. induction before as [|c before IH]; cbn.
  - unfold name_is. rewrite Hn, String.eqb_refl. reflexivity.
  - assert (name_is channelName c = false) as ->.
    { unfold name_is. destruct (Slack.name c) as [n|] eqn:Hc; [|reflexivity].
      destruct (String.eqb_spec n channelName); [|reflexivity].
      subst n. destruct (Hb c (or_introl eq_refl) Hc). }
    apply IH. intros c' Hc'. apply Hb. now right.
Qed.

Lemma find_absent (channelName : string) (channels : list Slack.Channel) :
  (forall c, In c channels -> Slack.name c <> Some channelName) ->
  find (name_is channelName) channels = None.
Proof.
  intros Hb. induction channels as [|c channels IH]; cbn; [reflexivity|].
  assert (name_is channelName c = false) as ->.
  { unfold name_is. destruct (Slack.name c) as [n|] eqn:Hc; [|reflexivity].
    destruct (String.eqb_spec n channelName); [|reflexivity].
    subst n. destruct (Hb c (or_introl eq_refl) Hc). }
  apply IH. intros c' Hc'. apply Hb. now right.
Qed.

(** Whatever the inputs, a run whose channel resolution yields nothing
    issues no call but the listing. *)
Lemma run_without_channel (w : World) :
  snd (getChannelId w (getInput w "channel")) = Normal None ->
  forall c, In c (calls (trace (run w))) -> c = Slack.ConversationsList.
Proof.
  intros Hnone c.
  destruct (valid_action (getInput w "action")) eqn:Hv.
  - destruct (needs_thread (getInput w "action")
              && String.eqb (getInput w "thread-id") "") eqn:Hn.
    + apply andb_prop in Hn as [Hn Ht]. apply String.eqb_eq in Ht.
      rewrite (run_missing_thread w Hv Hn Ht). read_run. intros [].
    + rewrite (run_unresolved w None Hv Hn Hnone eq_refl).
      destruct (getChannelId_total w (getInput w "channel")) as (v & _ & Hc).
      read_run. rewrite Hc. intros [<-|[]]. reflexivity.
  - rewrite (run_unknown_action w Hv). read_run. intros [].
Qed.

(** * The claims *)

(** C1 (the code departs from the claim).  Validation lowers the action
    before looking it up, but the dispatch compares the action as written:
    ["START"] and ["start"] have the same lowered form, yet the first takes
    the upload path (pointer message and uploads, no output) where the second
    posts the start message and sets the output. *)
Theorem C1_uppercase_start_runs_upload :
  JS.toLowerCase (getInput Sample.upper_start "action")
  = JS.toLowerCase (getInput Sample.lower_start "action")
  /\ calls (trace (run Sample.lower_start))
     = [ Slack.ConversationsList;
         Slack.ChatPostMessage
           {| Slack.post_channel := "C1CI";
              Slack.post_link_names := true;
              Slack.post_thread_ts := None;
              Slack.post_mrkdwn := None;
              Slack.post_text := None;
              Slack.post_attachments :=
                [ {| Slack.color := "#f2c744";
                     Slack.header := ":rocket: Deploy";
                     Slack.fields :=
                       [ "*Run URL:* <https://github.com/acme/shop/actions/runs/42|Click!>";
                         "*Status:* In progress";
                         "*Author:* @alice" ] |} ] |} ]
  /\ outputs (trace (run Sample.lower_start))
     = [ ("thread-id", Some "1690000000.1") ]
  /\ calls (trace (run Sample.upper_start))
     = [ Slack.ConversationsList;
         Slack.ChatPostMessage
           {| Slack.post_channel := "C1CI";
              Slack.post_link_names := true;
              Slack.post_thread_ts := Some "";
              Slack.post_mrkdwn := Some true;
              Slack.post_text := Some "@alice check this out :point_down:";
              Slack.post_attachments := [] |};
         Slack.FilesUpload
           {| Slack.filename := "login/fail.png";
              Slack.file := "cypress/screenshots/login/fail.png";
              Slack.upload_thread_ts := "";
              Slack.channels := "C1CI" |};
         Slack.FilesUpload
           {| Slack.filename := "login.mp4";
              Slack.file := "cypress/videos/login.mp4";
              Slack.upload_thread_ts := "";
              Slack.channels := "C1CI" |} ]
  /\ outputs (trace (run Sample.upper_start)) = [].
Proof. vm_compute. repeat split. Qed.

(** C2 as stated fails: with neither root on the disk each walk throws
    instead of returning the empty sequence, and the invocation is marked
    failed where the claim has a no-op success. *)
Lemma C2_absent_roots_fail_the_run :
  JS.toLowerCase (getInput Sample.upload_bare "action") = "upload"
  /\ Sample.bare_disk !! "cypress/screenshots" = None
  /\ Sample.bare_disk !! "cypress/videos" = None
  /\ walkSync Sample.upload_bare "cypress/screenshots" ["**/*.png"]
     <> Normal []
  /\ walkSync Sample.upload_bare "cypress/videos" ["**/*.mp4"] <> Normal []
  /\ failures (trace (run Sample.upload_bare)) <> [].
Proof.
  split; [reflexivity|]. split; [reflexivity|]. split; [reflexivity|].
  vm_compute. repeat split; discriminate.
Qed.

(** C2, amended.  In an upload invocation whose channel is resolved, when
    one of the two roots does not exist its walk throws, and the invocation
    is marked failed once with that walk's message after the listing call,
    with no pointer message, no upload and no output.  When both roots exist
    and hold no matching entry, each walk is the empty sequence and the
    invocation ends as a no-op: the listing is its only call and nothing is
    marked failed. *)
Theorem C2_absent_root_throws_existing_root_walks (w : World)
    (fs : gmap string (list string)) (channelID : string) :
  (forall baseDir globs, walkSync w baseDir globs = FS.walkSync fs baseDir globs) ->
  JS.toLowerCase (getInput w "action") = "upload" ->
  getInput w "thread-id" <> "" ->
  resolves_to w channelID ->
  (fs !! JS.or_else (getInput w "videos") "cypress/videos" = None ->
   exists message,
     walkSync w (JS.or_else (getInput w "videos") "cypress/videos")
       ["**/*.mp4"] = Throw message
     /\ calls (trace (run w)) = [Slack.ConversationsList]
     /\ failures (trace (run w)) = [message]
     /\ outputs (trace (run w)) = [])
  /\ (forall clips,
        fs !! JS.or_else (getInput w "videos") "cypress/videos" = Some clips ->
        fs !! JS.or_else (getInput w "screenshots") "cypress/screenshots"
        = None ->
        exists message,
          walkSync w
            (JS.or_else (getInput w "screenshots") "cypress/screenshots")
            ["**/*.png"] = Throw message
          /\ calls (trace (run w)) = [Slack.ConversationsList]
          /\ failures (trace (run w)) = [message]
          /\ outputs (trace (run w)) = [])
  /\ (forall shots clips,
        fs !! JS.or_else (getInput w "screenshots") "cypress/screenshots"
        = Some shots ->
        fs !! JS.or_else (getInput w "videos") "cypress/videos" = Some clips ->
        (forall entry, In entry shots -> FS.matches "**/*.png" entry = false) ->
        (forall entry, In entry clips -> FS.matches "**/*.mp4" entry = false) ->
        walkSync w
          (JS.or_else (getInput w "screenshots") "cypress/screenshots")
          ["**/*.png"] = Normal []
        /\ walkSync w (JS.or_else (getInput w "videos") "cypress/videos")
             ["**/*.mp4"] = Normal []
        /\ calls (trace (run w)) = [Slack.ConversationsList]
        /\ failures (trace (run w)) = []
        /\ snd (run w) = Normal tt).
Proof.
  intros Hwalk Ha Ht Hr. split; [|split].
  - intros Hnone.
    exists (FS.enoent (JS.or_else (getInput w "videos") "cypress/videos")).
    assert (walkSync w (JS.or_else (getInput w "videos") "cypress/videos")
              ["**/*.mp4"]
            = Throw (FS.enoent
                       (JS.or_else (getInput w "videos") "cypress/videos")))
      as Hv.
    { rewrite Hwalk. unfold FS.walkSync. now rewrite Hnone. }
    split; [exact Hv|].
    rewrite (run_upload w channelID Ha Ht Hr).
    rewrite (upload_mode_videos_walk_throws _ _ _ _ _ _ _ Hv).
    repeat split; read_run; reflexivity.
  - intros clips Hclips Hnone.
    exists (FS.enoent
              (JS.or_else (getInput w "screenshots") "cypress/screenshots")).
    assert (walkSync w
              (JS.or_else (getInput w "screenshots") "cypress/screenshots")
              ["**/*.png"]
            = Throw (FS.enoent
                       (JS.or_else (getInput w "screenshots")
                          "cypress/screenshots"))) as Hs.
    { rewrite Hwalk. unfold FS.walkSync. now rewrite Hnone. }
    assert (exists videos,
              walkSync w (JS.or_else (getInput w "videos") "cypress/videos")
                ["**/*.mp4"] = Normal videos) as (videos & Hv).
    { rewrite Hwalk. unfold FS.walkSync. rewrite Hclips. eauto. }
    split; [exact Hs|].
    rewrite (run_upload w channelID Ha Ht Hr).
    rewrite (upload_mode_screenshots_walk_throws _ _ _ _ _ _ _ _ Hv Hs).
    repeat split; read_run; reflexivity.
  - intros shots clips Hshots Hclips Hno_shot Hno_clip.
    assert (forall glob entries,
              (forall entry, In entry entries -> FS.matches glob entry = false) ->
              List.filter
                (fun entry => existsb (fun g => FS.matches g entry) [glob])
                entries = []) as Hfilter.
    { intros glob entries Hno. induction entries as [|entry entries IH];
        [reflexivity|]. cbn. rewrite (Hno entry (or_introl eq_refl)). cbn.
      apply IH. intros e He. apply Hno. now right. }
    assert (walkSync w
              (JS.or_else (getInput w "screenshots") "cypress/screenshots")
              ["**/*.png"] = Normal []) as Hs.
    { rewrite Hwalk. unfold FS.walkSync. rewrite Hshots.
      now rewrite (Hfilter _ _ Hno_shot). }
    assert (walkSync w (JS.or_else (getInput w "videos") "cypress/videos")
              ["**/*.mp4"] = Normal []) as Hv.
    { rewrite Hwalk. unfold FS.walkSync. rewrite Hclips.
      now rewrite (Hfilter _ _ Hno_clip). }
    split; [exact Hs|]. split; [exact Hv|].
    rewrite (run_upload w channelID Ha Ht Hr).
    rewrite (upload_mode_nothing_found _ _ _ _ _ _ Hv Hs).
    repeat split.
Qed.

Lemma C2_witness :
  (calls (trace (run Sample.upload_bare)) = [Slack.ConversationsList]
   /\ failures (trace (run Sample.upload_bare))
      = [FS.enoent "cypress/videos"])
  /\ (calls (trace (run Sample.upload_stale)) = [Slack.ConversationsList]
      /\ failures (trace (run Sample.upload_stale)) = []).
Proof.
  split.
  - destruct (C2_absent_root_throws_existing_root_walks Sample.upload_bare
                Sample.bare_disk "C1CI") as (Habsent & _ & _).
    + reflexivity.
    + reflexivity.
    + vm_compute. discriminate.
    + split; [reflexivity|discriminate].
    + destruct Habsent as (message & Hthrown & Hcalls & Hfailed & _).
      * reflexivity.
      * split; [exact Hcalls|]. rewrite Hfailed.
        vm_compute in Hthrown. injection Hthrown as <-. reflexivity.
  - destruct (C2_absent_root_throws_existing_root_walks Sample.upload_stale
                Sample.stale_disk "C1CI") as (_ & _ & Hexisting).
    + reflexivity.
    + reflexivity.
    + vm_compute. discriminate.
    + split; [reflexivity|discriminate].
    + destruct (Hexisting ["README.md"] []) as (_ & _ & Hcalls & Hfailed & _).
      * reflexivity.
      * reflexivity.
      * intros entry [<-|[]]. reflexivity.
      * intros entry [].
      * split; [exact Hcalls|exact Hfailed].
Defined.

(** C3 as stated fails: with the thread identifier missing, the listing call
    is never issued. *)
Lemma C3_listing_call_not_issued :
  JS.toLowerCase (getInput Sample.upload_no_thread "action") = "upload"
  /\ getInput Sample.upload_no_thread "thread-id" = ""
  /\ ~ In Slack.ConversationsList (calls (trace (run Sample.upload_no_thread))).
Proof.
  split; [reflexivity|]. split; [reflexivity|].
  vm_compute. intros [].
Qed.

(** C3, amended.  An invocation whose lowered action is [upload] or [finish]
    and whose thread identifier is empty is marked failed once, after the
    opening notes, and does nothing else: no remote call at all, the listing
    call included, and no output. *)
Theorem C3_missing_thread_id_fails_before_any_call (w : World) :
  JS.toLowerCase (getInput w "action") = "upload"
  \/ JS.toLowerCase (getInput w "action") = "finish" ->
  getInput w "thread-id" = "" ->
  trace (run w)
  = preamble w
      ++ [SetFailed ("Action: " +:+ getInput w "action"
                     +:+ " requires thread-id.")]
  /\ calls (trace (run w)) = []
  /\ outputs (trace (run w)) = []
  /\ failures (trace (run w))
     = ["Action: " +:+ getInput w "action" +:+ " requires thread-id."].
Proof.
  intros Ha Ht.
  assert (valid_action (getInput w "action") = true
          /\ needs_thread (getInput w "action") = true) as [Hv Hn].
  { destruct Ha as [Ha|Ha].
    - destruct (lower_upload _ Ha) as (Hv & Hn & _). now split.
    - now apply lower_finish. }
  rewrite (run_missing_thread w Hv Hn Ht). unfold trace. cbn [fst].
  rewrite calls_app, outputs_app, failures_app,
    calls_preamble, outputs_preamble, failures_preamble.
  repeat split.
Qed.

Lemma C3_witness :
  calls (trace (run Sample.upload_no_thread)) = []
  /\ failures (trace (run Sample.upload_no_thread))
     = ["Action: upload requires thread-id."].
Proof.
  destruct (C3_missing_thread_id_fails_before_any_call Sample.upload_no_thread)
    as (_ & Hc & _ & Hf).
  - left. reflexivity.
  - reflexivity.
  - split; [exact Hc|exact Hf].
Defined.

(** C4 as stated fails: one screenshot and one video are discovered, the
    pointer post is rejected, and no upload call follows it. *)
Lemma C4_rejected_post_stops_the_uploads :
  JS.toLowerCase (getInput Sample.upload_post_fails "action") = "upload"
  /\ walkSync Sample.upload_post_fails "cypress/screenshots" ["**/*.png"]
     = Normal ["login/fail.png"]
  /\ walkSync Sample.upload_post_fails "cypress/videos" ["**/*.mp4"]
     = Normal ["login.mp4"]
  /\ calls (trace (run Sample.upload_post_fails))
     = [ Slack.ConversationsList;
         Slack.ChatPostMessage
           {| Slack.post_channel := "C1CI";
              Slack.post_link_names := true;
              Slack.post_thread_ts := Some "1690000000.1";
              Slack.post_mrkdwn := Some true;
              Slack.post_text := Some "@alice check this out :point_down:";
              Slack.post_attachments := [] |} ]
  /\ failures (trace (run Sample.upload_post_fails)) = ["thread_not_found"].
Proof. vm_compute. repeat split. Qed.

(** C4, amended.  An upload invocation that discovers N >= 1 screenshots and
    M >= 1 videos, whose pointer post succeeds and whose screenshot uploads
    all succeed, issues after the listing call exactly: the pointer message
    into the thread, then the N screenshot uploads in walk order, then the M
    video uploads in walk order. *)
Theorem C4_pointer_then_screenshots_then_videos (w : World)
    (channelID : string) (screenshots videos : list string)
    (ts : option string) :
  JS.toLowerCase (getInput w "action") = "upload" ->
  getInput w "thread-id" <> "" ->
  resolves_to w channelID ->
  walkSync w (JS.or_else (getInput w "screenshots") "cypress/screenshots")
    ["**/*.png"] = Normal screenshots ->
  walkSync w (JS.or_else (getInput w "videos") "cypress/videos")
    ["**/*.mp4"] = Normal videos ->
  (1 <= length screenshots)%nat ->
  (1 <= length videos)%nat ->
  chat_postMessage w
    (pointer_message channelID (getInput w "thread-id") (getInput w "author"))
  = Normal ts ->
  (forall p,
     In p (promises w
             (JS.or_else (getInput w "screenshots") "cypress/screenshots")
             (getInput w "thread-id") channelID screenshots) ->
     snd p = Normal tt) ->
  calls (trace (run w))
  = Slack.ConversationsList
    :: Slack.ChatPostMessage
         {| Slack.post_channel := channelID;
            Slack.post_link_names := true;
            Slack.post_thread_ts := Some (getInput w "thread-id");
            Slack.post_mrkdwn := Some true;
            Slack.post_text :=
              Some ("@" +:+ getInput w "author"
                    +:+ " check this out :point_down:");
            Slack.post_attachments := [] |}
    :: uploads (JS.or_else (getInput w "screenshots") "cypress/screenshots")
         (getInput w "thread-id") channelID screenshots
    ++ uploads (JS.or_else (getInput w "videos") "cypress/videos")
         (getInput w "thread-id") channelID videos
  /\ length (uploads
               (JS.or_else (getInput w "screenshots") "cypress/screenshots")
               (getInput w "thread-id") channelID screenshots)
     = length screenshots
  /\ length (uploads (JS.or_else (getInput w "videos") "cypress/videos")
               (getInput w "thread-id") channelID videos)
     = length videos.
Proof.
  intros Ha Ht Hr Hs Hv HN HM Hp Hok.
  split; [|split; apply length_map].
  rewrite (run_upload w channelID Ha Ht Hr).
  assert ((length videos <=? 0)%nat && (length screenshots <=? 0)%nat = false)
    as Hfound.
  { destruct videos; [cbn in HM; lia|reflexivity]. }
  rewrite (upload_mode_posted _ _ _ _ _ _ _ _ Hv Hs Hfound ts Hp).
  read_run. rewrite fst_bind, calls_app, calls_upload_group.
  rewrite snd_upload_group, (Promise_all_fulfils _ Hok).
  rewrite calls_upload_group. reflexivity.
Qed.

Lemma C4_witness :
  calls (trace (run Sample.upload_full))
  = [ Slack.ConversationsList;
      Slack.ChatPostMessage
        {| Slack.post_channel := "C1CI";
           Slack.post_link_names := true;
           Slack.post_thread_ts := Some "1690000000.1";
           Slack.post_mrkdwn := Some true;
           Slack.post_text := Some "@alice check this out :point_down:";
           Slack.post_attachments := [] |};
      Slack.FilesUpload
        {| Slack.filename := "cart/empty.png";
           Slack.file := "cypress/screenshots/cart/empty.png";
           Slack.upload_thread_ts := "1690000000.1";
           Slack.channels := "C1CI" |};
      Slack.FilesUpload
        {| Slack.filename := "login/fail.png";
           Slack.file := "cypress/screenshots/login/fail.png";
           Slack.upload_thread_ts := "1690000000.1";
           Slack.channels := "C1CI" |};
      Slack.FilesUpload
        {| Slack.filename := "cart.mp4";
           Slack.file := "cypress/videos/cart.mp4";
           Slack.upload_thread_ts := "1690000000.1";
           Slack.channels := "C1CI" |};
      Slack.FilesUpload
        {| Slack.filename := "login.mp4";
           Slack.file := "cypress/videos/login.mp4";
           Slack.upload_thread_ts := "1690000000.1";
           Slack.channels := "C1CI" |} ].
Proof.
  refine (proj1 (C4_pointer_then_screenshots_then_videos Sample.upload_full
                   "C1CI" ["cart/empty.png"; "login/fail.png"]
                   ["cart.mp4"; "login.mp4"] (Some "1690000000.2")
                   _ _ _ _ _ _ _ _ _)).
  - reflexivity.
  - vm_compute. discriminate.
  - split; [reflexivity|discriminate].
  - reflexivity.
  - reflexivity.
  - cbn. lia.
  - cbn. lia.
  - reflexivity.
  - intros p [<-|[<-|[]]]; reflexivity.
Defined.

(** C5.  In an upload invocation whose pointer post succeeded, if an upload
    of the screenshot group is rejected, the run is marked failed once, with
    the message of a rejected upload of that group (the one that settles
    first), and its remote calls are the listing, the pointer post and the
    screenshot uploads: no video upload and no call that undoes anything.
    If the screenshot uploads all succeed and an upload of the video group is
    rejected, the same holds with the video uploads issued as well. *)
Theorem C5_rejected_upload_fails_the_run (w : World) (channelID : string)
    (screenshots videos : list string) (ts : option string) :
  JS.toLowerCase (getInput w "action") = "upload" ->
  getInput w "thread-id" <> "" ->
  resolves_to w channelID ->
  walkSync w (JS.or_else (getInput w "screenshots") "cypress/screenshots")
    ["**/*.png"] = Normal screenshots ->
  walkSync w (JS.or_else (getInput w "videos") "cypress/videos")
    ["**/*.mp4"] = Normal videos ->
  chat_postMessage w
    (pointer_message channelID (getInput w "thread-id") (getInput w "author"))
  = Normal ts ->
  ((exists p message,
      In p (promises w
              (JS.or_else (getInput w "screenshots") "cypress/screenshots")
              (getInput w "thread-id") channelID screenshots)
      /\ snd p = Throw message) ->
   exists t message,
     In (t, Throw message)
        (promises w
           (JS.or_else (getInput w "screenshots") "cypress/screenshots")
           (getInput w "thread-id") channelID screenshots)
     /\ (forall t' message',
           In (t', Throw message')
              (promises w
                 (JS.or_else (getInput w "screenshots") "cypress/screenshots")
                 (getInput w "thread-id") channelID screenshots) ->
           (t <= t')%nat)
     /\ failures (trace (run w)) = [message]
     /\ calls (trace (run w))
        = Slack.ConversationsList
          :: Slack.ChatPostMessage
               (pointer_message channelID (getInput w "thread-id")
                  (getInput w "author"))
          :: uploads
               (JS.or_else (getInput w "screenshots") "cypress/screenshots")
               (getInput w "thread-id") channelID screenshots)
  /\
  ((forall p,
      In p (promises w
              (JS.or_else (getInput w "screenshots") "cypress/screenshots")
              (getInput w "thread-id") channelID screenshots) ->
      snd p = Normal tt) ->
   (exists p message,
      In p (promises w (JS.or_else (getInput w "videos") "cypress/videos")
              (getInput w "thread-id") channelID videos)
      /\ snd p = Throw message) ->
   exists t message,
     In (t, Throw message)
        (promises w (JS.or_else (getInput w "videos") "cypress/videos")
           (getInput w "thread-id") channelID videos)
     /\ (forall t' message',
           In (t', Throw message')
              (promises w (JS.or_else (getInput w "videos") "cypress/videos")
                 (getInput w "thread-id") channelID videos) ->
           (t <= t')%nat)
     /\ failures (trace (run w)) = [message]
     /\ calls (trace (run w))
        = Slack.ConversationsList
          :: Slack.ChatPostMessage
               (pointer_message channelID (getInput w "thread-id")
                  (getInput w "author"))
          :: uploads
               (JS.or_else (getInput w "screenshots") "cypress/screenshots")
               (getInput w "thread-id") channelID screenshots
          ++ uploads (JS.or_else (getInput w "videos") "cypress/videos")
               (getInput w "thread-id") channelID videos).
Proof.
  intros Ha Ht Hr Hs Hv Hp.
  rewrite (run_upload w channelID Ha Ht Hr).
  destruct (groups_read w
              (JS.or_else (getInput w "screenshots") "cypress/screenshots")
              (JS.or_else (getInput w "videos") "cypress/videos")
              (getInput w "thread-id") channelID screenshots videos)
    as (Hcalls & Hfailures & Hend).
  split.
  - intros Hex.
    assert ((length videos <=? 0)%nat && (length screenshots <=? 0)%nat = false)
      as Hfound.
    { destruct Hex as (p & _ & Hin & _).
      apply (promises_nonempty _ _ _ _ _ videos p Hin). }
    destruct (Promise_all_rejects _ Hex) as (t & message & Hall & Hin & Hmin).
    exists t, message. split; [exact Hin|]. split; [exact Hmin|].
    rewrite (upload_mode_posted _ _ _ _ _ _ _ _ Hv Hs Hfound ts Hp).
    rewrite Hall in Hcalls, Hend.
    split; read_run; [rewrite Hfailures, Hend|rewrite Hcalls];
      cbn; now rewrite ?app_nil_r.
  - intros Hok Hex.
    assert ((length videos <=? 0)%nat && (length screenshots <=? 0)%nat = false)
      as Hfound.
    { destruct Hex as (p & _ & Hin & _).
      apply (promises_nonempty _ _ _ _ _ screenshots p Hin). }
    destruct (Promise_all_rejects _ Hex) as (t & message & Hall & Hin & Hmin).
    exists t, message. split; [exact Hin|]. split; [exact Hmin|].
    rewrite (upload_mode_posted _ _ _ _ _ _ _ _ Hv Hs Hfound ts Hp).
    rewrite (Promise_all_fulfils _ Hok) in Hcalls, Hend.
    cbv iota beta in Hend. rewrite Hall in Hend.
    split; read_run; [rewrite Hfailures, Hend|rewrite Hcalls];
      cbn; now rewrite ?app_nil_r.
Qed.

Lemma C5_witness :
  (failures (trace (run Sample.upload_screenshot_rejected))
   = ["file_too_large"]
   /\ calls (trace (run Sample.upload_screenshot_rejected))
      = [ Slack.ConversationsList;
          Slack.ChatPostMessage
            (pointer_message "C1CI" "1690000000.1" "alice");
          Slack.FilesUpload
            {| Slack.filename := "login/fail.png";
               Slack.file := "cypress/screenshots/login/fail.png";
               Slack.upload_thread_ts := "1690000000.1";
               Slack.channels := "C1CI" |} ])
  /\ (failures (trace (run Sample.upload_videos_rejected))
      = ["file_too_large"]
      /\ calls (trace (run Sample.upload_videos_rejected))
         = Slack.ConversationsList
           :: Slack.ChatPostMessage
                (pointer_message "C1CI" "1690000000.1" "alice")
           :: uploads "cypress/screenshots" "1690000000.1" "C1CI"
                ["cart/empty.png"; "login/fail.png"]
           ++ uploads "cypress/videos" "1690000000.1" "C1CI"
                ["cart.mp4"; "login.mp4"]).
Proof.
  split.
  - destruct (C5_rejected_upload_fails_the_run
                Sample.upload_screenshot_rejected
                "C1CI" ["login/fail.png"] ["login.mp4"] (Some "1690000000.2"))
      as [Hgroup _].
    + reflexivity.
    + vm_compute. discriminate.
    + split; [reflexivity|discriminate].
    + reflexivity.
    + reflexivity.
    + reflexivity.
    + destruct Hgroup as (t & message & Hin & _ & Hfailed & Hcalls).
      * exists (7, Throw "file_too_large"), "file_too_large".
        split; [left|]; reflexivity.
      * vm_compute in Hin. destruct Hin as [Heq|[]].
        inversion Heq; subst. split; [exact Hfailed|exact Hcalls].
  - destruct (C5_rejected_upload_fails_the_run Sample.upload_videos_rejected
                "C1CI" ["cart/empty.png"; "login/fail.png"]
                ["cart.mp4"; "login.mp4"] (Some "1690000000.2"))
      as [_ Hgroup].
    + reflexivity.
    + vm_compute. discriminate.
    + split; [reflexivity|discriminate].
    + reflexivity.
    + reflexivity.
    + reflexivity.
    + destruct Hgroup as (t & message & Hin & Hmin & Hfailed & Hcalls).
      * intros p [<-|[<-|[]]]; reflexivity.
      * exists (9, Throw "rate_limited"), "rate_limited".
        split; [left|]; reflexivity.
      * specialize (Hmin 4 "file_too_large" (or_intror (or_introl eq_refl))).
        vm_compute in Hin. destruct Hin as [Heq|[Heq|[]]];
          inversion Heq; subst; [lia|].
        split; [exact Hfailed|exact Hcalls].
Defined.

(** C6.  In finish mode (the action is ['finish'], a thread identifier is
    supplied and the channel is resolved) the run issues, after the listing
    call, one update of the message named by the thread identifier.  Its
    colour and icon are the positive pair exactly when the status input is
    ['success'], and the negative pair for every other value, the empty one
    included; with status ['failure'] the icon is [:poop:], the colour
    [#e30d0d] and the status field reads [failure]. *)
Theorem C6_finish_status_selects_icon_and_color (w : World)
    (channelID status : string) :
  getInput w "action" = "finish" ->
  getInput w "thread-id" <> "" ->
  resolves_to w channelID ->
  getInput w "status" = status ->
  (calls (trace (run w))
     = [ Slack.ConversationsList;
         Slack.ChatUpdate
           {| Slack.update_channel := channelID;
              Slack.update_link_names := true;
              Slack.update_ts := getInput w "thread-id";
              Slack.update_attachments :=
                [ {| Slack.color :=
                       if String.eqb status "success"
                       then "#64f244" else "#e30d0d";
                     Slack.header :=
                       (if String.eqb status "success"
                        then ":ok_hand:" else ":poop:")
                       +:+ " " +:+ getInput w "message-text";
                     Slack.fields :=
                       [ run_url w;
                         "*Status:* "
                         +:+ (if String.eqb status "" then "false" else status);
                         "*Author:* @" +:+ getInput w "author" ] |} ] |} ])
  /\ (status = "failure" ->
      calls (trace (run w))
      = [ Slack.ConversationsList;
          Slack.ChatUpdate
            {| Slack.update_channel := channelID;
               Slack.update_link_names := true;
               Slack.update_ts := getInput w "thread-id";
               Slack.update_attachments :=
                 [ {| Slack.color := "#e30d0d";
                      Slack.header :=
                        ":poop: " +:+ getInput w "message-text";
                      Slack.fields :=
                        [ run_url w; "*Status:* failure";
                          "*Author:* @" +:+ getInput w "author" ] |} ] |} ]).
Proof.
  intros Ha Ht Hr Hs.
  rewrite (run_finish w channelID Ha Ht Hr).
  unfold finish_mode, finish_message, await. rewrite Hs, is_success_status.
  split.
  - read_run. unfold status_or_false.
    destruct (String.eqb status ""); reflexivity.
  - intros ->. read_run. reflexivity.
Qed.

Lemma C6_witness :
  calls (trace (run Sample.finish_failure))
  = [ Slack.ConversationsList;
      Slack.ChatUpdate
        {| Slack.update_channel := "C1CI";
           Slack.update_link_names := true;
           Slack.update_ts := "169000.1";
           Slack.update_attachments :=
             [ {| Slack.color := "#e30d0d";
                  Slack.header := ":poop: Deploy";
                  Slack.fields :=
                    [ "*Run URL:* <https://github.com/acme/shop/actions/runs/42|Click!>";
                      "*Status:* failure";
                      "*Author:* @alice" ] |} ] |} ].
Proof.
  refine (proj2 (C6_finish_status_selects_icon_and_color Sample.finish_failure
                   "C1CI" "failure" _ _ _ _) _).
  - reflexivity.
  - vm_compute. discriminate.
  - split; [reflexivity|discriminate].
  - reflexivity.
  - reflexivity.
Defined.

(** C7.  In start mode (the action is ['start'] and the channel is resolved),
    when the post of the start message succeeds the run sets exactly one
    output, [thread-id], to the [ts] of the response as returned, and marks
    nothing failed. *)
Theorem C7_start_outputs_returned_thread_id (w : World) (channelID : string)
    (ts : option string) :
  getInput w "action" = "start" ->
  resolves_to w channelID ->
  chat_postMessage w
    (start_message w channelID (getInput w "message-text")
       (getInput w "author"))
  = Normal ts ->
  outputs (trace (run w)) = [("thread-id", ts)]
  /\ failures (trace (run w)) = [].
Proof.
  intros Ha Hr Hp.
  rewrite (run_start w channelID Ha Hr).
  unfold start_mode, await. rewrite Hp.
  split; read_run; reflexivity.
Qed.

Lemma C7_witness :
  outputs (trace (run Sample.lower_start))
  = [("thread-id", Some "1690000000.1")]
  /\ failures (trace (run Sample.lower_start)) = [].
Proof.
  refine (C7_start_outputs_returned_thread_id Sample.lower_start "C1CI"
            (Some "1690000000.1") _ _ _).
  - reflexivity.
  - split; [reflexivity|discriminate].
  - reflexivity.
Defined.

(** C8.  [getChannelId] returns the identifier of the first channel of the
    listing whose name equals the requested name, byte for byte.  When no
    channel of the listing has that name it marks the run failed and returns
    nothing, and the run then issues no call other than the listing: no
    message is posted or edited and no file is uploaded. *)
Theorem C8_channel_resolution_by_exact_name (w : World) (channelName : string)
    (result : option (list Slack.Channel)) :
  conversations_list w = Normal result ->
  (forall before channel after,
     default [] result = before ++ channel :: after ->
     Slack.name channel = Some channelName ->
     (forall c, In c before -> Slack.name c <> Some channelName) ->
     getChannelId w channelName
     = ([Remote Slack.ConversationsList], Normal (Slack.id channel)))
  /\ ((forall c, In c (default [] result) ->
                 Slack.name c <> Some channelName) ->
      getChannelId w channelName
      = ([ Remote Slack.ConversationsList;
           SetFailed ("Channel '" +:+ channelName +:+ "' not found.") ],
         Normal None)
      /\ (getInput w "channel" = channelName ->
          forall c, In c (calls (trace (run w))) ->
                    c = Slack.ConversationsList)).
Proof.
  intros Hl. split.
  - intros before channel after Hsplit Hn Hb.
    apply (getChannelId_found w channelName result); [exact Hl|].
    rewrite Hsplit. now apply find_first.
  - intros Habsent.
    assert (getChannelId w channelName
            = ([ Remote Slack.ConversationsList;
                 SetFailed ("Channel '" +:+ channelName +:+ "' not found.") ],
               Normal None)) as Hg.
    { apply (getChannelId_not_found w channelName result); [exact Hl|].
      now apply find_absent. }
    split; [exact Hg|]. intros <-. apply run_without_channel.
    rewrite Hg. reflexivity.
Qed.

Lemma C8_witness :
  getChannelId Sample.lower_start "ci"
  = ([Remote Slack.ConversationsList], Normal (Some "C1CI"))
  /\ getChannelId Sample.unknown_channel "CI"
     = ([ Remote Slack.ConversationsList;
          SetFailed "Channel 'CI' not found." ], Normal None)
  /\ forall c, In c (calls (trace (run Sample.unknown_channel))) ->
               c = Slack.ConversationsList.
Proof.
  split.
  - refine (proj1 (C8_channel_resolution_by_exact_name Sample.lower_start "ci"
                     (Some Sample.listing) _)
              [ {| Slack.id := Some "C0GENERAL"; Slack.name := Some "general" |} ]
              {| Slack.id := Some "C1CI"; Slack.name := Some "ci" |}
              [ {| Slack.id := Some "C2CI"; Slack.name := Some "ci" |} ]
              _ _ _).
    + reflexivity.
    + reflexivity.
    + reflexivity.
    + intros c [<-|[]]. discriminate.
  - destruct (proj2 (C8_channel_resolution_by_exact_name Sample.unknown_channel
                       "CI" (Some Sample.listing) eq_refl)) as [Hg Hrun].
    + intros c [<-|[<-|[<-|[]]]]; discriminate.
    + split; [exact Hg|]. apply Hrun. reflexivity.
Defined.

(** C9.  An upload invocation whose two walks both come back empty logs the
    note and stops: the listing call is its only remote call (no pointer
    message, no upload), nothing is marked failed, and it ends normally. *)
Theorem C9_no_artifacts_is_a_noop (w : World) (channelID : string) :
  JS.toLowerCase (getInput w "action") = "upload" ->
  getInput w "thread-id" <> "" ->
  resolves_to w channelID ->
  walkSync w (JS.or_else (getInput w "screenshots") "cypress/screenshots")
    ["**/*.png"] = Normal [] ->
  walkSync w (JS.or_else (getInput w "videos") "cypress/videos")
    ["**/*.mp4"] = Normal [] ->
  trace (run w)
  = preamble w ++ sdk_notes
      ++ [ Remote Slack.ConversationsList;
           Info "Checking for videos and/or screenshots from cypress";
           Info "No videos or screenshots found. Exiting!" ]
  /\ calls (trace (run w)) = [Slack.ConversationsList]
  /\ failures (trace (run w)) = []
  /\ snd (run w) = Normal tt.
Proof.
  intros Ha Ht Hr Hs Hv.
  rewrite (run_upload w channelID Ha Ht Hr).
  rewrite (upload_mode_nothing_found _ _ _ _ _ _ Hv Hs).
  repeat split.
Qed.

Lemma C9_witness :
  calls (trace (run Sample.upload_stale)) = [Slack.ConversationsList]
  /\ failures (trace (run Sample.upload_stale)) = [].
Proof.
  destruct (C9_no_artifacts_is_a_noop Sample.upload_stale "C1CI")
    as (_ & Hc & Hf & _).
  - reflexivity.
  - vm_compute. discriminate.
  - split; [reflexivity|discriminate].
  - reflexivity.
  - reflexivity.
  - split; [exact Hc|exact Hf].
Defined.

(** C10.  In finish mode with the status input empty or not set, the update
    carries the negative colour and icon and its status field is the text
    [false]. *)
Theorem C10_unset_status_renders_false (w : World) (channelID : string) :
  getInput w "action" = "finish" ->
  getInput w "thread-id" <> "" ->
  resolves_to w channelID ->
  inputs w !! "status" = None \/ inputs w !! "status" = Some "" ->
  calls (trace (run w))
  = [ Slack.ConversationsList;
      Slack.ChatUpdate
        {| Slack.update_channel := channelID;
           Slack.update_link_names := true;
           Slack.update_ts := getInput w "thread-id";
           Slack.update_attachments :=
             [ {| Slack.color := "#e30d0d";
                  Slack.header := ":poop: " +:+ getInput w "message-text";
                  Slack.fields :=
                    [ run_url w; "*Status:* false";
                      "*Author:* @" +:+ getInput w "author" ] |} ] |} ].
Proof.
  intros Ha Ht Hr Hs.
  assert (getInput w "status" = "") as Hempty.
  { unfold getInput. destruct Hs as [-> | ->]; reflexivity. }
  rewrite (run_finish w channelID Ha Ht Hr).
  unfold finish_mode, finish_message, await. rewrite Hempty.
  read_run. reflexivity.
Qed.

Lemma C10_witness :
  calls (trace (run Sample.finish_unset))
  = [ Slack.ConversationsList;
      Slack.ChatUpdate
        {| Slack.update_channel := "C1CI";
           Slack.update_link_names := true;
           Slack.update_ts := "169000.1";
           Slack.update_attachments :=
             [ {| Slack.color := "#e30d0d";
                  Slack.header := ":poop: Deploy";
                  Slack.fields :=
                    [ "*Run URL:* <https://github.com/acme/shop/actions/runs/42|Click!>";
                      "*Status:* false";
                      "*Author:* @alice" ] |} ] |} ].
Proof.
  refine (C10_unset_status_renders_false Sample.finish_unset "C1CI" _ _ _ _).
  - reflexivity.
  - vm_compute. discriminate.
  - split; [reflexivity|discriminate].
  - left. reflexivity.
Defined.

(** * Further properties of [getChannelId] and [run] *)

(** ** What each branch can emit *)

Lemma truthy_Some (v : option string) (channelID : string) :
  truthy v = Some channelID -> v = Some channelID /\ channelID <> "".
Proof.
  destruct v as [s|]; cbn; [|discriminate].
  destruct (String.eqb_spec s ""); [discriminate|].
  intros [= <-]. now split.
Qed.

Lemma nothing_found_lists (videos screenshots : list string) :
  (length videos <=? 0)%nat && (length screenshots <=? 0)%nat = true ->
  videos = [] /\ screenshots = [].
Proof.
  destruct videos, screenshots; cbn; intros H; try discriminate. now split.
Qed.

Lemma something_found (videos screenshots : list string) :
  (1 <= length screenshots + length videos)%nat ->
  (length videos <=? 0)%nat && (length screenshots <=? 0)%nat = false.
Proof.
  destruct videos, screenshots; cbn; intros H; try reflexivity. lia.
Qed.

Lemma In_uploads (dir thr cid : string) (paths : list string)
    (c : Slack.call) :
  In c (uploads dir thr cid paths) ->
  exists path, In path paths
               /\ c = Slack.FilesUpload (upload_args dir thr cid path).
Proof.
  unfold uploads. rewrite in_map_iff. intros (path & <- & Hin). eauto.
Qed.

Lemma groups_outputs (w : World)
    (screenshotsDir videosDir previousMsgThreadId channelID : string)
    (screenshots videos : list string) :
  outputs
    (fst (bind (upload_group w screenshotsDir previousMsgThreadId channelID
                  " screenshots" screenshots)
               (fun _ => upload_group w videosDir previousMsgThreadId
                           channelID " videos" videos)))
  = [].
Proof.
  rewrite fst_bind, outputs_app, outputs_upload_group.
  destruct (snd _); [apply outputs_upload_group|reflexivity].
Qed.

Lemma upload_mode_quiet (w : World)
    (channelID previousMsgThreadId author screenshotsDir videosDir : string) :
  failures (fst (upload_mode w channelID previousMsgThreadId author
                   screenshotsDir videosDir)) = []
  /\ outputs (fst (upload_mode w channelID previousMsgThreadId author
                     screenshotsDir videosDir)) = []
  /\ forall c,
       In c (calls (fst (upload_mode w channelID previousMsgThreadId author
                           screenshotsDir videosDir))) ->
       upload_call channelID previousMsgThreadId author screenshotsDir
         videosDir c.
Proof.
  destruct (walkSync w videosDir ["**/*.mp4"]) as [videos|m] eqn:Hv.
  2: { rewrite (upload_mode_videos_walk_throws _ _ _ _ _ _ _ Hv).
       repeat split. intros c []. }
  destruct (walkSync w screenshotsDir ["**/*.png"]) as [screenshots|m] eqn:Hs.
  2: { rewrite (upload_mode_screenshots_walk_throws _ _ _ _ _ _ _ _ Hv Hs).
       repeat split. intros c []. }
  destruct ((length videos <=? 0)%nat && (length screenshots <=? 0)%nat)
    eqn:Hfound.
  { destruct (nothing_found_lists _ _ Hfound) as [-> ->].
    rewrite (upload_mode_nothing_found _ _ _ _ _ _ Hv Hs).
    repeat split. intros c []. }
  destruct (chat_postMessage w
              (pointer_message channelID previousMsgThreadId author))
    as [ts|m] eqn:Hp.
  2: { rewrite (upload_mode_post_throws _ _ _ _ _ _ _ _ Hv Hs Hfound _ Hp).
       repeat split. intros c [<-|[]]. left. reflexivity. }
  rewrite (upload_mode_posted _ _ _ _ _ _ _ _ Hv Hs Hfound ts Hp).
  destruct (groups_read w screenshotsDir videosDir previousMsgThreadId
              channelID screenshots videos) as (Hcalls & Hfailures & _).
  cbn [fst]. split; [|split].
  - rewrite !failures_Info, failures_Remote, failures_Info. exact Hfailures.
  - rewrite !outputs_Info, outputs_Remote, outputs_Info.
    apply groups_outputs.
  - rewrite calls_Info, calls_Remote, calls_Info, Hcalls.
    intros c [<-|Hin]; [left; reflexivity|].
    apply in_app_or in Hin as [Hin|Hin].
    + apply In_uploads in Hin as (path & _ & ->). right. left. eauto.
    + destruct (Promise_all _); [|destruct Hin].
      apply In_uploads in Hin as (path & _ & ->). right. right. eauto.
Qed.

Lemma upload_call_not_listing
    (channelID previousMsgThreadId author screenshotsDir videosDir : string) :
  ~ upload_call channelID previousMsgThreadId author screenshotsDir videosDir
      Slack.ConversationsList.
Proof. intros [H|[[p H]|[p H]]]; discriminate. Qed.

(** The three branches never call [setFailed] themselves, never list the
    channels again, and set an output only in the start branch. *)
Lemma branch_quiet (w : World) (channelID : string) :
  failures (fst (branch w channelID)) = []
  /\ ~ In Slack.ConversationsList (calls (fst (branch w channelID)))
  /\ (outputs (fst (branch w channelID)) = []
      \/ (getInput w "action" = "start"
          /\ snd (branch w channelID) = Normal tt
          /\ exists ts, outputs (fst (branch w channelID))
                        = [("thread-id", ts)])).
Proof.
  unfold branch.
  destruct (String.eqb_spec (getInput w "action") "start") as [Ha|Ha].
  - unfold start_mode, await.
    destruct (chat_postMessage w _) as [ts|m]; cbn.
    + split; [reflexivity|]. split; [intros [H|[]]; discriminate|].
      right. eauto.
    + split; [reflexivity|]. split; [intros [H|[]]; discriminate|].
      left. reflexivity.
  - destruct (String.eqb (getInput w "action") "finish").
    + unfold finish_mode, await. cbn.
      split; [reflexivity|]. split; [intros [H|[]]; discriminate|].
      left. reflexivity.
    + destruct (upload_mode_quiet w channelID (getInput w "thread-id")
                  (getInput w "author")
                  (JS.or_else (getInput w "screenshots") "cypress/screenshots")
                  (JS.or_else (getInput w "videos") "cypress/videos"))
        as (Hf & Ho & Hc).
      split; [exact Hf|]. split; [|left; exact Ho].
      intros Hin. apply Hc in Hin.
      exact (upload_call_not_listing _ _ _ _ _ Hin).
Qed.

(** ** The shape of every run *)

(** A run stops at validation, or after a channel resolution that yields
    nothing usable, or goes through one branch under the top-level catch. *)
Lemma run_shape (w : World) :
  (exists message, run w = (preamble w ++ [SetFailed message], Normal tt))
  \/ (exists v,
        snd (getChannelId w (getInput w "channel")) = Normal v
        /\ truthy v = None
        /\ run w
           = (preamble w ++ sdk_notes
                ++ fst (getChannelId w (getInput w "channel")),
              Normal tt))
  \/ (exists channelID,
        resolves_to w channelID
        /\ run w
           = (preamble w ++ sdk_notes ++ [Remote Slack.ConversationsList]
                ++ fst (try_catch (branch w channelID) core.setFailed),
              Normal tt)).
Proof.
  destruct (valid_action (getInput w "action")) eqn:Hv.
  2: { left. eexists. apply (run_unknown_action w Hv). }
  destruct (needs_thread (getInput w "action")
            && String.eqb (getInput w "thread-id") "") eqn:Hn.
  { apply andb_prop in Hn as [Hn Ht]. apply String.eqb_eq in Ht.
    left. eexists. apply (run_missing_thread w Hv Hn Ht). }
  right.
  destruct (getChannelId_total w (getInput w "channel")) as (v & Hsnd & _).
  destruct (truthy v) as [channelID|] eqn:Htruthy.
  - right. exists channelID.
    apply truthy_Some in Htruthy as [-> Hne].
    assert (resolves_to w channelID) as Hr by (split; assumption).
    split; [exact Hr|].
    rewrite (run_resolved w channelID Hv Hn Hr), snd_try_catch. reflexivity.
  - left. exists v. split; [exact Hsnd|]. split; [exact Htruthy|].
    apply (run_unresolved w v Hv Hn Hsnd Htruthy).
Qed.

(** [getChannelId] reports at most one failure, and only with no result. *)
Lemma getChannelId_read (w : World) (channelName : string) :
  exists v,
    snd (getChannelId w channelName) = Normal v
    /\ calls (fst (getChannelId w channelName)) = [Slack.ConversationsList]
    /\ outputs (fst (getChannelId w channelName)) = []
    /\ (failures (fst (getChannelId w channelName)) = []
        \/ (v = None
            /\ exists message,
                 failures (fst (getChannelId w channelName)) = [message])).
Proof.
  destruct (conversations_list w) as [result|message] eqn:Hl.
  - destruct (find (name_is channelName) (default [] result)) as [c|] eqn:Hf.
    + rewrite (getChannelId_found _ _ _ _ Hl Hf). eexists.
      repeat split. left. reflexivity.
    + rewrite (getChannelId_not_found _ _ _ Hl Hf). eexists.
      repeat split. right. split; [reflexivity|]. eexists. reflexivity.
  - rewrite (getChannelId_throws _ _ _ Hl). eexists.
    repeat split. right. split; [reflexivity|]. eexists. reflexivity.
Qed.

(** ** Validation and channel resolution *)

(** X1.  An action whose lowered form is none of [start], [upload], [finish]
    (the unset action included) ends the run at the first check: after the
    opening notes the run is marked failed with [Unknown action: <action>],
    and there is no remote call and no output. *)
Theorem X1_unknown_action_fails_before_any_call (w : World) :
  JS.includes ["start"; "upload"; "finish"]
    (JS.toLowerCase (getInput w "action")) = false ->
  trace (run w)
  = preamble w ++ [SetFailed ("Unknown action: " +:+ getInput w "action")]
  /\ calls (trace (run w)) = []
  /\ outputs (trace (run w)) = [].
Proof.
  intros Hv. rewrite (run_unknown_action w Hv).
  split; [reflexivity|]. split; read_run; reflexivity.
Qed.

Lemma X1_witness :
  failures (trace (run Sample.no_action)) = ["Unknown action: "]
  /\ calls (trace (run Sample.no_action)) = [].
Proof.
  destruct (X1_unknown_action_fails_before_any_call Sample.no_action)
    as (Htrace & Hcalls & _).
  - reflexivity.
  - split; [rewrite Htrace; reflexivity|exact Hcalls].
Defined.

(** X2.  When the listing call itself throws, [getChannelId] catches the
    error: the run is marked failed once with
    [Failed to fetch channel ID: <message>], the listing is its only remote
    call, and no output is set, whatever the (valid) action. *)
Theorem X2_listing_error_stops_the_run (w : World) (message : string) :
  JS.includes ["start"; "upload"; "finish"]
    (JS.toLowerCase (getInput w "action")) = true ->
  JS.includes ["upload"; "finish"] (JS.toLowerCase (getInput w "action"))
  && String.eqb (getInput w "thread-id") "" = false ->
  conversations_list w = Throw message ->
  calls (trace (run w)) = [Slack.ConversationsList]
  /\ failures (trace (run w)) = ["Failed to fetch channel ID: " +:+ message]
  /\ outputs (trace (run w)) = [].
Proof.
  intros Hv Hn Hl.
  assert (getChannelId w (getInput w "channel")
          = ([ Remote Slack.ConversationsList;
               SetFailed ("Failed to fetch channel ID: " +:+ message) ],
             Normal None)) as Hg by now apply getChannelId_throws.
  rewrite (run_unresolved w None Hv Hn); [|now rewrite Hg|reflexivity].
  rewrite Hg. repeat split.
Qed.

Lemma X2_witness :
  calls (trace (run Sample.listing_fails)) = [Slack.ConversationsList]
  /\ failures (trace (run Sample.listing_fails))
     = ["Failed to fetch channel ID: invalid_auth"]
  /\ outputs (trace (run Sample.listing_fails)) = [].
Proof.
  apply (X2_listing_error_stops_the_run Sample.listing_fails "invalid_auth");
    reflexivity.
Defined.

(** X3.  When the first channel with the requested name carries no
    identifier, or an empty one, the run returns after the listing call
    without marking itself failed: no further call, no failure, no output. *)
Theorem X3_channel_without_id_ends_silently (w : World)
    (result : option (list Slack.Channel)) (channel : Slack.Channel) :
  JS.includes ["start"; "upload"; "finish"]
    (JS.toLowerCase (getInput w "action")) = true ->
  JS.includes ["upload"; "finish"] (JS.toLowerCase (getInput w "action"))
  && String.eqb (getInput w "thread-id") "" = false ->
  conversations_list w = Normal result ->
  find (name_is (getInput w "channel")) (default [] result) = Some channel ->
  Slack.id channel = None \/ Slack.id channel = Some "" ->
  calls (trace (run w)) = [Slack.ConversationsList]
  /\ failures (trace (run w)) = []
  /\ outputs (trace (run w)) = []
  /\ last_event (trace (run w)) = Some (Remote Slack.ConversationsList).
Proof.
  intros Hv Hn Hl Hf Hid.
  pose proof (getChannelId_found w _ _ _ Hl Hf) as Hg.
  rewrite (run_unresolved w (Slack.id channel) Hv Hn);
    [|now rewrite Hg|destruct Hid as [-> | ->]; reflexivity].
  rewrite Hg. repeat split.
Qed.

Lemma X3_witness :
  calls (trace (run Sample.channel_without_id)) = [Slack.ConversationsList]
  /\ failures (trace (run Sample.channel_without_id)) = []
  /\ outputs (trace (run Sample.channel_without_id)) = []
  /\ last_event (trace (run Sample.channel_without_id))
     = Some (Remote Slack.ConversationsList).
Proof.
  refine (X3_channel_without_id_ends_silently Sample.channel_without_id
            _ {| Slack.id := None; Slack.name := Some "ci" |} _ _ _ _ _).
  - reflexivity.
  - reflexivity.
  - reflexivity.
  - reflexivity.
  - left. reflexivity.
Defined.

(** X4.  [getChannelId] never throws: for every listing answer and every
    name it issues exactly one listing call, sets no output, and either
    marks nothing failed or marks the run failed exactly once and returns no
    identifier. *)
Theorem X4_getChannelId_never_throws (w : World) (channelName : string) :
  exists v,
    getChannelId w channelName
    = (fst (getChannelId w channelName), Normal v)
    /\ calls (fst (getChannelId w channelName)) = [Slack.ConversationsList]
    /\ outputs (fst (getChannelId w channelName)) = []
    /\ (failures (fst (getChannelId w channelName)) = []
        \/ (v = None
            /\ length (failures (fst (getChannelId w channelName))) = 1%nat)).
Proof.
  destruct (getChannelId_read w channelName) as (v & Hs & Hc & Ho & Hf).
  exists v. split; [|split; [exact Hc|split; [exact Ho|]]].
  - destruct (getChannelId w channelName) as [tr r]. cbn in *. now subst.
  - destruct Hf as [Hf|(-> & m & Hf)]; [now left|right]. now rewrite Hf.
Qed.

(** ** Invariants of every run *)

(** X5.  Whatever the inputs and the remote answers, [run] does not throw
    and marks the invocation failed at most once. *)
Theorem X5_at_most_one_failure (w : World) :
  snd (run w) = Normal tt
  /\ (length (failures (trace (run w))) <= 1)%nat.
Proof.
  split; [apply run_total|].
  destruct (run_shape w) as [(m & ->)|[(v & Hs & Ht & ->)|(cid & Hr & ->)]].
  - read_run. cbn. lia.
  - destruct (getChannelId_read w (getInput w "channel"))
      as (v' & _ & _ & _ & Hf).
    read_run. destruct Hf as [-> |(_ & m & ->)]; cbn; lia.
  - destruct (branch_quiet w cid) as (Hf & _ & _).
    read_run. rewrite Hf. destruct (snd (branch w cid)); cbn; lia.
Qed.

(** X6.  A run that issues any remote call issues the listing call first and
    never lists the channels again: channel resolution precedes every
    message and upload. *)
Theorem X6_listing_call_first_and_once (w : World) :
  calls (trace (run w)) = []
  \/ exists rest,
       calls (trace (run w)) = Slack.ConversationsList :: rest
       /\ ~ In Slack.ConversationsList rest.
Proof.
  destruct (run_shape w) as [(m & ->)|[(v & Hs & Ht & ->)|(cid & Hr & ->)]].
  - left. read_run. reflexivity.
  - right. exists [].
    destruct (getChannelId_read w (getInput w "channel")) as (v' & _ & Hc & _).
    read_run. rewrite Hc. split; [reflexivity|intros []].
  - right. exists (calls (fst (branch w cid))).
    destruct (branch_quiet w cid) as (_ & Hc & _).
    read_run. split; [reflexivity|exact Hc].
Qed.

(** X7.  An output is set only when the action is written exactly [start]:
    then it is the single output [thread-id] and the run is not marked
    failed.  Every other run sets no output at all. *)
Theorem X7_output_only_in_start_mode (w : World) :
  outputs (trace (run w)) = []
  \/ (getInput w "action" = "start"
      /\ failures (trace (run w)) = []
      /\ exists ts, outputs (trace (run w)) = [("thread-id", ts)]).
Proof.
  destruct (run_shape w) as [(m & ->)|[(v & Hs & Ht & ->)|(cid & Hr & ->)]].
  - left. read_run. reflexivity.
  - left.
    destruct (getChannelId_read w (getInput w "channel"))
      as (v' & _ & _ & Ho & _).
    read_run. rewrite Ho. reflexivity.
  - destruct (branch_quiet w cid) as (Hf & _ & [Ho|(Ha & Hn & ts & Ho)]).
    + left. read_run. rewrite Ho. reflexivity.
    + right. split; [exact Ha|]. split.
      * read_run. rewrite Hf, Hn. reflexivity.
      * exists ts. read_run. rewrite Ho. reflexivity.
Qed.

(** ** Start and finish *)

(** X8.  In start mode a rejected post is caught at the top: the run is
    marked failed with the error's message, no output is set, and the calls
    are the listing and the one post. *)
Theorem X8_start_post_failure (w : World) (channelID message : string) :
  getInput w "action" = "start" ->
  resolves_to w channelID ->
  chat_postMessage w
    (start_message w channelID (getInput w "message-text")
       (getInput w "author"))
  = Throw message ->
  calls (trace (run w))
  = [ Slack.ConversationsList;
      Slack.ChatPostMessage
        (start_message w channelID (getInput w "message-text")
           (getInput w "author")) ]
  /\ failures (trace (run w)) = [message]
  /\ outputs (trace (run w)) = [].
Proof.
  intros Ha Hr Hp. rewrite (run_start w channelID Ha Hr).
  unfold start_mode, await. rewrite Hp.
  repeat split; read_run; reflexivity.
Qed.

Lemma X8_witness :
  failures (trace (run Sample.start_post_fails)) = ["not_in_channel"]
  /\ outputs (trace (run Sample.start_post_fails)) = [].
Proof.
  destruct (X8_start_post_failure Sample.start_post_fails "C1CI"
              "not_in_channel") as (_ & Hf & Ho).
  - reflexivity.
  - split; [reflexivity|discriminate].
  - reflexivity.
  - split; [exact Hf|exact Ho].
Defined.

(** X9.  In finish mode the run issues exactly two calls, the listing and
    one update, and sets no output; it is marked failed exactly when the
    update is rejected, with the rejection's message. *)
Theorem X9_finish_fails_only_with_the_update (w : World) (channelID : string) :
  getInput w "action" = "finish" ->
  getInput w "thread-id" <> "" ->
  resolves_to w channelID ->
  (exists args,
     Slack.update_ts args = getInput w "thread-id"
     /\ Slack.update_channel args = channelID
     /\ calls (trace (run w))
        = [Slack.ConversationsList; Slack.ChatUpdate args]
     /\ failures (trace (run w))
        = match chat_update w args with
          | Normal _ => []
          | Throw message => [message]
          end)
  /\ outputs (trace (run w)) = [].
Proof.
  intros Ha Ht Hr. rewrite (run_finish w channelID Ha Ht Hr).
  unfold finish_mode, await. split.
  - eexists. split; [|split; [|split]]; [| |read_run; reflexivity|].
    + reflexivity.
    + reflexivity.
    + read_run. reflexivity.
  - read_run. reflexivity.
Qed.

Lemma X9_witness :
  failures (trace (run Sample.finish_update_fails)) = ["message_not_found"]
  /\ failures (trace (run Sample.finish_failure)) = []
  /\ outputs (trace (run Sample.finish_update_fails)) = [].
Proof.
  destruct (X9_finish_fails_only_with_the_update Sample.finish_update_fails
              "C1CI") as ((args & _ & _ & _ & Hf) & Ho).
  - reflexivity.
  - vm_compute. discriminate.
  - split; [reflexivity|discriminate].
  - split; [exact Hf|]. split; [reflexivity|exact Ho].
Defined.

(** ** Upload mode beyond the nominal case *)

Lemma upload_group_done (w : World) (dir thr cid note : string)
    (paths : list string) :
  paths <> [] ->
  Promise_all (promises w dir thr cid paths) = Normal tt ->
  exists tr, fst (upload_group w dir thr cid note paths)
             = tr ++ [Info "...done!"].
Proof.
  intros Hne Hok. unfold upload_group.
  destruct paths as [|path paths]; [contradiction|].
  cbn [length Nat.ltb Nat.leb]. rewrite upload_all_eq.
  unfold bind, core.info, emit. rewrite Hok.
  eexists (Info _ :: concat _). reflexivity.
Qed.

Lemma upload_group_nil (w : World) (dir thr cid note : string) :
  upload_group w dir thr cid note [] = ([], Normal tt).
Proof. reflexivity. Qed.

(** X10.  The pointer message is posted whenever at least one artifact of
    either kind is found: with only videos, only screenshots or both, a
    successful post and successful screenshot uploads, the calls are the
    listing, the pointer post, the screenshot uploads and then the video
    uploads, each group in walk order and possibly empty. *)
Theorem X10_pointer_posted_for_any_artifact (w : World) (channelID : string)
    (screenshots videos : list string) (ts : option string) :
  JS.toLowerCase (getInput w "action") = "upload" ->
  getInput w "thread-id" <> "" ->
  resolves_to w channelID ->
  walkSync w (JS.or_else (getInput w "screenshots") "cypress/screenshots")
    ["**/*.png"] = Normal screenshots ->
  walkSync w (JS.or_else (getInput w "videos") "cypress/videos")
    ["**/*.mp4"] = Normal videos ->
  (1 <= length screenshots + length videos)%nat ->
  chat_postMessage w
    (pointer_message channelID (getInput w "thread-id") (getInput w "author"))
  = Normal ts ->
  (forall p,
     In p (promises w
             (JS.or_else (getInput w "screenshots") "cypress/screenshots")
             (getInput w "thread-id") channelID screenshots) ->
     snd p = Normal tt) ->
  calls (trace (run w))
  = Slack.ConversationsList
    :: Slack.ChatPostMessage
         (pointer_message channelID (getInput w "thread-id")
            (getInput w "author"))
    :: uploads (JS.or_else (getInput w "screenshots") "cypress/screenshots")
         (getInput w "thread-id") channelID screenshots
    ++ uploads (JS.or_else (getInput w "videos") "cypress/videos")
         (getInput w "thread-id") channelID videos.
Proof.
  intros Ha Ht Hr Hs Hv Hany Hp Hok.
  rewrite (run_upload w channelID Ha Ht Hr).
  rewrite (upload_mode_posted _ _ _ _ _ _ _ _ Hv Hs
             (something_found _ _ Hany) ts Hp).
  destruct (groups_read w
              (JS.or_else (getInput w "screenshots") "cypress/screenshots")
              (JS.or_else (getInput w "videos") "cypress/videos")
              (getInput w "thread-id") channelID screenshots videos)
    as (Hcalls & _ & _).
  rewrite (Promise_all_fulfils _ Hok) in Hcalls.
  read_run. rewrite Hcalls. reflexivity.
Qed.

Lemma X10_witness :
  calls (trace (run Sample.upload_videos_only))
  = [ Slack.ConversationsList;
      Slack.ChatPostMessage (pointer_message "C1CI" "1690000000.1" "alice");
      Slack.FilesUpload
        {| Slack.filename := "checkout.mp4";
           Slack.file := "cypress/videos/checkout.mp4";
           Slack.upload_thread_ts := "1690000000.1";
           Slack.channels := "C1CI" |};
      Slack.FilesUpload
        {| Slack.filename := "login.mp4";
           Slack.file := "cypress/videos/login.mp4";
           Slack.upload_thread_ts := "1690000000.1";
           Slack.channels := "C1CI" |} ].
Proof.
  refine (X10_pointer_posted_for_any_artifact Sample.upload_videos_only "C1CI"
            [] ["checkout.mp4"; "login.mp4"] (Some "1690000000.2")
            _ _ _ _ _ _ _ _).
  - reflexivity.
  - vm_compute. discriminate.
  - split; [reflexivity|discriminate].
  - reflexivity.
  - reflexivity.
  - cbn. lia.
  - reflexivity.
  - intros p [].
Defined.

(** X11.  An upload run in which an artifact is found, the pointer post
    succeeds and every upload of both groups succeeds marks nothing failed,
    sets no output, and ends on the note [...done!]. *)
Theorem X11_successful_upload_run (w : World) (channelID : string)
    (screenshots videos : list string) (ts : option string) :
  JS.toLowerCase (getInput w "action") = "upload" ->
  getInput w "thread-id" <> "" ->
  resolves_to w channelID ->
  walkSync w (JS.or_else (getInput w "screenshots") "cypress/screenshots")
    ["**/*.png"] = Normal screenshots ->
  walkSync w (JS.or_else (getInput w "videos") "cypress/videos")
    ["**/*.mp4"] = Normal videos ->
  (1 <= length screenshots + length videos)%nat ->
  chat_postMessage w
    (pointer_message channelID (getInput w "thread-id") (getInput w "author"))
  = Normal ts ->
  (forall p,
     In p (promises w
             (JS.or_else (getInput w "screenshots") "cypress/screenshots")
             (getInput w "thread-id") channelID screenshots
           ++ promises w (JS.or_else (getInput w "videos") "cypress/videos")
                (getInput w "thread-id") channelID videos) ->
     snd p = Normal tt) ->
  failures (trace (run w)) = []
  /\ outputs (trace (run w)) = []
  /\ last_event (trace (run w)) = Some (Info "...done!").
Proof.
  intros Ha Ht Hr Hs Hv Hany Hp Hok.
  assert (Promise_all
            (promises w
               (JS.or_else (getInput w "screenshots") "cypress/screenshots")
               (getInput w "thread-id") channelID screenshots) = Normal tt)
    as HokS.
  { apply Promise_all_fulfils. intros p Hin. apply Hok, in_or_app. now left. }
  assert (Promise_all
            (promises w (JS.or_else (getInput w "videos") "cypress/videos")
               (getInput w "thread-id") channelID videos) = Normal tt)
    as HokV.
  { apply Promise_all_fulfils. intros p Hin. apply Hok, in_or_app. now right. }
  rewrite (run_upload w channelID Ha Ht Hr).
  rewrite (upload_mode_posted _ _ _ _ _ _ _ _ Hv Hs
             (something_found _ _ Hany) ts Hp).
  destruct (groups_read w
              (JS.or_else (getInput w "screenshots") "cypress/screenshots")
              (JS.or_else (getInput w "videos") "cypress/videos")
              (getInput w "thread-id") channelID screenshots videos)
    as (_ & Hfailures & Hend).
  rewrite HokS, HokV in Hend.
  split; [|split].
  - read_run. rewrite Hfailures, Hend. reflexivity.
  - read_run. apply groups_outputs.
  - unfold trace, last_event. cbn [fst].
    assert (exists tr,
              fst (bind (upload_group w
                           (JS.or_else (getInput w "screenshots")
                              "cypress/screenshots")
                           (getInput w "thread-id") channelID " screenshots"
                           screenshots)
                        (fun _ => upload_group w
                                    (JS.or_else (getInput w "videos")
                                       "cypress/videos")
                                    (getInput w "thread-id") channelID
                                    " videos" videos))
              = tr ++ [Info "...done!"]) as (tr & Htr).
    { rewrite fst_bind, snd_upload_group, HokS.
      destruct videos as [|video videos].
      - rewrite upload_group_nil. cbn [fst]. rewrite app_nil_r.
        apply upload_group_done; [|exact HokS].
        destruct screenshots; [cbn in Hany; lia|discriminate].
      - destruct (upload_group_done w
                    (JS.or_else (getInput w "videos") "cypress/videos")
                    (getInput w "thread-id") channelID " videos"
                    (video :: videos)) as (tr & ->);
          [discriminate|exact HokV|].
        eexists. apply app_assoc. }
    match goal with
    | |- last (_ ++ _ ++ _ ++ fst (try_catch ?m _)) = _ =>
        assert (snd m = Normal tt) as Hnormal by exact Hend;
        destruct m as [trm r] eqn:Hm
    end.
    cbn in Hnormal. subst r. cbn [try_catch fst].
    injection Hm as Hm. rewrite <- Hm, Htr.
    rewrite !app_comm_cons, !app_assoc. apply last_snoc.
Qed.

Lemma X11_witness :
  failures (trace (run Sample.upload_full)) = []
  /\ outputs (trace (run Sample.upload_full)) = []
  /\ last_event (trace (run Sample.upload_full)) = Some (Info "...done!").
Proof.
  refine (X11_successful_upload_run Sample.upload_full "C1CI"
            ["cart/empty.png"; "login/fail.png"] ["cart.mp4"; "login.mp4"]
            (Some "1690000000.2") _ _ _ _ _ _ _ _).
  - reflexivity.
  - vm_compute. discriminate.
  - split; [reflexivity|discriminate].
  - reflexivity.
  - reflexivity.
  - cbn. lia.
  - reflexivity.
  - intros p [<-|[<-|[<-|[<-|[]]]]]; reflexivity.
Defined.

(** X12.  When an artifact is found and the pointer post is rejected, the
    run is marked failed with the rejection's message and no upload is
    issued, however many files were found. *)
Theorem X12_rejected_post_stops_the_uploads (w : World) (channelID : string)
    (screenshots videos : list string) (message : string) :
  JS.toLowerCase (getInput w "action") = "upload" ->
  getInput w "thread-id" <> "" ->
  resolves_to w channelID ->
  walkSync w (JS.or_else (getInput w "screenshots") "cypress/screenshots")
    ["**/*.png"] = Normal screenshots ->
  walkSync w (JS.or_else (getInput w "videos") "cypress/videos")
    ["**/*.mp4"] = Normal videos ->
  (1 <= length screenshots + length videos)%nat ->
  chat_postMessage w
    (pointer_message channelID (getInput w "thread-id") (getInput w "author"))
  = Throw message ->
  calls (trace (run w))
  = [ Slack.ConversationsList;
      Slack.ChatPostMessage
        (pointer_message channelID (getInput w "thread-id")
           (getInput w "author")) ]
  /\ failures (trace (run w)) = [message].
Proof.
  intros Ha Ht Hr Hs Hv Hany Hp.
  rewrite (run_upload w channelID Ha Ht Hr).
  rewrite (upload_mode_post_throws _ _ _ _ _ _ _ _ Hv Hs
             (something_found _ _ Hany) _ Hp).
  split; read_run; reflexivity.
Qed.

Lemma X12_witness :
  calls (trace (run Sample.upload_post_fails))
  = [ Slack.ConversationsList;
      Slack.ChatPostMessage (pointer_message "C1CI" "1690000000.1" "alice") ]
  /\ failures (trace (run Sample.upload_post_fails)) = ["thread_not_found"].
Proof.
  refine (X12_rejected_post_stops_the_uploads Sample.upload_post_fails "C1CI"
            ["login/fail.png"] ["login.mp4"] "thread_not_found"
            _ _ _ _ _ _ _).
  - reflexivity.
  - vm_compute. discriminate.
  - split; [reflexivity|discriminate].
  - reflexivity.
  - reflexivity.
  - cbn. lia.
  - reflexivity.
Defined.

(** X13.  The two walks are inside the [try]: when the walk of the videos
    root throws, or that walk returns and the walk of the screenshots root
    throws, the run is marked failed with the walk's message and its only
    remote call is the listing. *)
Theorem X13_walk_error_fails_the_run (w : World) (channelID message : string) :
  JS.toLowerCase (getInput w "action") = "upload" ->
  getInput w "thread-id" <> "" ->
  resolves_to w channelID ->
  walkSync w (JS.or_else (getInput w "videos") "cypress/videos")
    ["**/*.mp4"] = Throw message
  \/ ((exists videos,
         walkSync w (JS.or_else (getInput w "videos") "cypress/videos")
           ["**/*.mp4"] = Normal videos)
      /\ walkSync w
           (JS.or_else (getInput w "screenshots") "cypress/screenshots")
           ["**/*.png"] = Throw message) ->
  calls (trace (run w)) = [Slack.ConversationsList]
  /\ failures (trace (run w)) = [message]
  /\ outputs (trace (run w)) = [].
Proof.
  intros Ha Ht Hr Hwalk.
  rewrite (run_upload w channelID Ha Ht Hr).
  destruct Hwalk as [Hv|[(videos & Hv) Hs]].
  - rewrite (upload_mode_videos_walk_throws _ _ _ _ _ _ _ Hv).
    repeat split; read_run; reflexivity.
  - rewrite (upload_mode_screenshots_walk_throws _ _ _ _ _ _ _ _ Hv Hs).
    repeat split; read_run; reflexivity.
Qed.

Lemma X13_witness :
  calls (trace (run Sample.upload_walk_throws)) = [Slack.ConversationsList]
  /\ failures (trace (run Sample.upload_walk_throws))
     = ["ENOENT: no such file or directory, scandir 'cypress/videos'"]
  /\ outputs (trace (run Sample.upload_walk_throws)) = [].
Proof.
  refine (X13_walk_error_fails_the_run Sample.upload_walk_throws "C1CI" _
            _ _ _ _).
  - reflexivity.
  - vm_compute. discriminate.
  - split; [reflexivity|discriminate].
  - left. reflexivity.
Defined.

(** X14.  In upload mode, whatever the walks return and the remote calls
    answer, every upload goes to the resolved channel and the supplied
    thread and reads its file from one of the two roots under the name it
    is uploaded with; the only message posted is the pointer message; and no
    message is ever edited. *)
Theorem X14_uploads_attach_to_thread_and_channel (w : World)
    (channelID : string) :
  JS.toLowerCase (getInput w "action") = "upload" ->
  getInput w "thread-id" <> "" ->
  resolves_to w channelID ->
  (forall args,
     In (Slack.FilesUpload args) (calls (trace (run w))) ->
     Slack.channels args = channelID
     /\ Slack.upload_thread_ts args = getInput w "thread-id"
     /\ (Slack.file args
         = JS.or_else (getInput w "screenshots") "cypress/screenshots"
           +:+ "/" +:+ Slack.filename args
         \/ Slack.file args
            = JS.or_else (getInput w "videos") "cypress/videos"
              +:+ "/" +:+ Slack.filename args))
  /\ (forall args,
        In (Slack.ChatPostMessage args) (calls (trace (run w))) ->
        args = pointer_message channelID (getInput w "thread-id")
                 (getInput w "author"))
  /\ (forall args, ~ In (Slack.ChatUpdate args) (calls (trace (run w)))).
Proof.
  intros Ha Ht Hr.
  rewrite (run_upload w channelID Ha Ht Hr).
  destruct (upload_mode_quiet w channelID (getInput w "thread-id")
              (getInput w "author")
              (JS.or_else (getInput w "screenshots") "cypress/screenshots")
              (JS.or_else (getInput w "videos") "cypress/videos"))
    as (_ & _ & Hcalls).
  assert (forall c,
            In c (calls (trace
                    (preamble w ++ sdk_notes
                       ++ [Remote Slack.ConversationsList]
                       ++ fst (try_catch
                                 (upload_mode w channelID
                                    (getInput w "thread-id")
                                    (getInput w "author")
                                    (JS.or_else (getInput w "screenshots")
                                       "cypress/screenshots")
                                    (JS.or_else (getInput w "videos")
                                       "cypress/videos"))
                                 core.setFailed),
                     Normal tt))) ->
            c = Slack.ConversationsList
            \/ upload_call channelID (getInput w "thread-id")
                 (getInput w "author")
                 (JS.or_else (getInput w "screenshots") "cypress/screenshots")
                 (JS.or_else (getInput w "videos") "cypress/videos") c)
    as Hall.
  { intros c. read_run. intros [<-|Hin]; [now left|right; now apply Hcalls]. }
  split; [|split].
  - intros args Hin.
    destruct (Hall _ Hin) as [H|[H|[(path & H)|(path & H)]]];
      try discriminate; injection H as ->; cbn; auto.
  - intros args Hin.
    destruct (Hall _ Hin) as [H|[H|[(path & H)|(path & H)]]];
      try discriminate. now injection H.
  - intros args Hin.
    destruct (Hall _ Hin) as [H|[H|[(path & H)|(path & H)]]]; discriminate.
Qed.

Lemma X14_witness :
  Forall (fun c =>
            match c with
            | Slack.FilesUpload args =>
                Slack.channels args = "C1CI"
                /\ Slack.upload_thread_ts args = "1690000000.1"
            | _ => True
            end)
         (calls (trace (run Sample.upload_videos_rejected))).
Proof.
  destruct (X14_uploads_attach_to_thread_and_channel
              Sample.upload_videos_rejected "C1CI") as (Hup & _ & _).
  - reflexivity.
  - vm_compute. discriminate.
  - split; [reflexivity|discriminate].
  - apply List.Forall_forall. intros [|args|args|args] Hin; try exact I.
    destruct (Hup args Hin) as (Hc & Ht & _). split; [exact Hc|exact Ht].
Defined.

(** X15.  Start and finish never touch the disk: with the action written
    [start] or [finish], the whole run is the same whatever the directory
    walk would return or throw and whatever an upload would answer. *)
Theorem X15_start_and_finish_ignore_the_disk (w : World)
    (walk : string -> list string -> completion (list string))
    (upload : Slack.UploadArgs -> nat * completion unit) :
  getInput w "action" = "start" \/ getInput w "action" = "finish" ->
  run (with_disk w walk upload) = run w.
Proof.
  intros Ha. unfold run, getInput, getChannelId, start_mode, finish_mode,
    start_message, finish_message, run_url, getEnv.
  cbn [with_disk inputs process_env conversations_list chat_postMessage
         chat_update].
  unfold getInput in Ha. destruct Ha as [-> | ->]; reflexivity.
Qed.

Lemma X15_witness :
  run (with_disk Sample.lower_start
         (fun _ _ => Throw "ENOENT") (fun _ => (0, Throw "file_too_large")))
  = run Sample.lower_start.
Proof.
  apply X15_start_and_finish_ignore_the_disk. left. reflexivity.
Defined.

(** ** The start message and the reach of the walks *)

(** X16.  In start mode the calls are the listing and one post, whether or
    not the post succeeds and whatever thread identifier is supplied.  The
    message is posted to the resolved channel outside any thread, with the
    colour [#f2c744], the header [:rocket: <message-text>], and the three
    fields run URL (built from the three environment values, empty when
    unset), [*Status:* In progress] and [*Author:* @<author>]. *)
Theorem X16_start_message_content (w : World) (channelID : string) :
  getInput w "action" = "start" ->
  resolves_to w channelID ->
  calls (trace (run w))
  = [ Slack.ConversationsList;
      Slack.ChatPostMessage
        {| Slack.post_channel := channelID;
           Slack.post_link_names := true;
           Slack.post_thread_ts := None;
           Slack.post_mrkdwn := None;
           Slack.post_text := None;
           Slack.post_attachments :=
             [ {| Slack.color := "#f2c744";
                  Slack.header := ":rocket: " +:+ getInput w "message-text";
                  Slack.fields :=
                    [ "*Run URL:* <"
                      +:+ default "" (process_env w !! "GITHUB_SERVER_URL")
                      +:+ "/"
                      +:+ default "" (process_env w !! "GITHUB_REPOSITORY")
                      +:+ "/actions/runs/"
                      +:+ default "" (process_env w !! "GITHUB_RUN_ID")
                      +:+ "|Click!>";
                      "*Status:* In progress";
                      "*Author:* @" +:+ getInput w "author" ] |} ] |} ].
Proof.
  intros Ha Hr. rewrite (run_start w channelID Ha Hr).
  unfold start_mode, await.
  destruct (chat_postMessage w _); read_run; reflexivity.
Qed.

Lemma X16_witness :
  calls (trace (run Sample.start_post_fails))
  = [ Slack.ConversationsList;
      Slack.ChatPostMessage
        {| Slack.post_channel := "C1CI";
           Slack.post_link_names := true;
           Slack.post_thread_ts := None;
           Slack.post_mrkdwn := None;
           Slack.post_text := None;
           Slack.post_attachments :=
             [ {| Slack.color := "#f2c744";
                  Slack.header := ":rocket: Deploy";
                  Slack.fields :=
                    [ "*Run URL:* <https://github.com/acme/shop/actions/runs/42|Click!>";
                      "*Status:* In progress";
                      "*Author:* @alice" ] |} ] |} ].
Proof.
  refine (X16_start_message_content Sample.start_post_fails "C1CI" _ _).
  - reflexivity.
  - split; [reflexivity|discriminate].
Defined.

(** X17.  [run] calls [walkSync] on two arguments only: the videos root
    with the filter [**/*.mp4] and the screenshots root with [**/*.png], each
    the input or its default.  Replacing the walk by another that agrees on
    these two calls, every upload answering as before, gives the same run.
    (An upload still opens its file itself; what it finds there is part of
    the upload's answer, not of the walk.) *)
Theorem X17_only_the_two_roots_are_walked (w : World)
    (walk walk' : string -> list string -> completion (list string))
    (upload : Slack.UploadArgs -> nat * completion unit) :
  walk (JS.or_else (getInput w "videos") "cypress/videos") ["**/*.mp4"]
  = walk' (JS.or_else (getInput w "videos") "cypress/videos") ["**/*.mp4"] ->
  walk (JS.or_else (getInput w "screenshots") "cypress/screenshots")
    ["**/*.png"]
  = walk' (JS.or_else (getInput w "screenshots") "cypress/screenshots")
      ["**/*.png"] ->
  run (with_disk w walk upload) = run (with_disk w walk' upload).
Proof.
  intros Hv Hs. unfold run, upload_mode, getInput, getChannelId, start_mode,
    finish_mode, start_message, finish_message, run_url, getEnv, upload_all,
    upload_one in *.
  cbn [with_disk inputs process_env conversations_list chat_postMessage
         chat_update files_upload walkSync].
  rewrite Hv, Hs. reflexivity.
Qed.

Lemma X17_witness :
  run (with_disk Sample.upload_full
         (FS.walkSync Sample.full_disk) (files_upload Sample.upload_full))
  = run (with_disk Sample.upload_full
           (FS.walkSync (<["node_modules" := ["left-pad/demo.mp4"]]>
                           Sample.full_disk))
           (files_upload Sample.upload_full)).
Proof.
  apply X17_only_the_two_roots_are_walked; reflexivity.
Defined.
